(** * Quranic fruit analyzer: a shallow embedding of [find.py]

    The program loads a table of verses with pandas, normalizes the Arabic
    text of every verse, builds a TF-IDF matrix with scikit-learn and then
    answers two kinds of requests: the verses closest to a query word and
    the number of rows mentioning each of five fruits.

    Python strings are sequences of Unicode code points, so a [pystr] is a
    list of code points.  Exceptions are explicit: a computation returns the
    lines it printed together with either a value or the exception it
    raised.  The pandas, numpy and scikit-learn calls the program makes are
    either written out on lists (dropna, iloc, slicing, reversal, the
    substring search of [str.contains]) or, where they depend on floating
    point (TF-IDF weights, cosine similarity, the order numpy's sort gives
    to equal keys), taken as variables of a section together with the part
    of their contract the program relies on. *)

From Stdlib Require Import List Bool Arith ZArith NArith Lia Ascii String Permutation Sorting.Sorted.
Import ListNotations.

Set Implicit Arguments.

(** ** Python strings *)

Definition codepoint := N.
Definition pystr := list codepoint.

(** The code points of an ASCII literal. *)
Fixpoint ascii_str (s : string) : pystr :=
  match s with
  | EmptyString => []
  | String a s' => N_of_ascii a :: ascii_str s'
  end.

Definition pystr_eqb (s t : pystr) : bool :=
  if list_eq_dec N.eq_dec s t then true else false.

(** [starts_with pat s]: [pat] is a prefix of [s]. *)
Fixpoint starts_with (pat s : pystr) : bool :=
  match pat, s with
  | [], _ => true
  | _ :: _, [] => false
  | p :: pat', c :: s' => N.eqb p c && starts_with pat' s'
  end.

(** [contains pat s]: the search [re.search(pat, s, re.IGNORECASE)] for a
    pattern made of letters that are neither regex metacharacters nor cased,
    which is the case of every variant of the fruit lexicon: the pattern
    matches exactly where it occurs as a substring. *)
Fixpoint contains (pat s : pystr) : bool :=
  starts_with pat s ||
  match s with
  | [] => false
  | _ :: s' => contains pat s'
  end.

(** ** Cells of a table *)

Inductive number : Type :=
| Int (z : Z)            (* an int64 value *)
| Float (m e : Z)        (* a finite float64 value, m * 2^e *)
| Inf (negative : bool).

(** A cell holds the missing-value marker [NaN], a string or a number. *)
Inductive cell : Type :=
| NaN
| Str (s : pystr)
| Num (n : number).

Definition notna (c : cell) : bool :=
  match c with NaN => false | _ => true end.

(** ** The text normalizer: [_normalize_arabic] *)

(** The character class [[\u064B-\u065F\u0670]]. *)
Definition is_diacritic (c : codepoint) : bool :=
  ((0x064B <=? c) && (c <=? 0x065F) || (c =? 0x0670))%N.

Definition ALEF : codepoint := 0x0627%N.
Definition ALEF_MADDA : codepoint := 0x0622%N.
Definition ALEF_HAMZA_ABOVE : codepoint := 0x0623%N.
Definition ALEF_HAMZA_BELOW : codepoint := 0x0625%N.
Definition YEH : codepoint := 0x064A%N.
Definition ALEF_MAKSURA : codepoint := 0x0649%N.
Definition TEH_MARBUTA : codepoint := 0x0629%N.
Definition HEH : codepoint := 0x0647%N.

(** [re.sub(r'[\u064B-\u065F\u0670]', '', text)] *)
Definition remove_diacritics (text : pystr) : pystr :=
  filter (fun c => negb (is_diacritic c)) text.

(** The character class [[إأآا]]. *)
Definition is_alef_form (c : codepoint) : bool :=
  ((c =? ALEF_HAMZA_BELOW) || (c =? ALEF_HAMZA_ABOVE) || (c =? ALEF_MADDA) || (c =? ALEF))%N.

(** [re.sub('[إأآا]', 'ا', text)] *)
Definition normalize_alef (text : pystr) : pystr :=
  map (fun c => if is_alef_form c then ALEF else c) text.

(** The character class [[يى]]. *)
Definition is_yeh_form (c : codepoint) : bool :=
  ((c =? YEH) || (c =? ALEF_MAKSURA))%N.

(** [re.sub('[يى]', 'ي', text)] *)
Definition normalize_yeh (text : pystr) : pystr :=
  map (fun c => if is_yeh_form c then YEH else c) text.

(** [re.sub('ة', 'ه', text)] *)
Definition normalize_teh_marbuta (text : pystr) : pystr :=
  map (fun c => if (c =? TEH_MARBUTA)%N then HEH else c) text.

Definition _normalize_arabic (text : cell) : pystr :=
  match text with
  | Str s =>
      let text := remove_diacritics s in
      let text := normalize_alef text in
      let text := normalize_yeh text in
      let text := normalize_teh_marbuta text in
      text
  | _ => []
  end.

(** ** Exceptions and printed lines *)

(** The exception classes the program can meet.  [exn_class] is the name of
    the Python class. *)
Inductive exn : Type :=
| FileNotFoundError
| PermissionError
| UnicodeDecodeError
| EmptyDataError
| ParserError
| KeyError (key : string)
| AttributeError
| IndexError
| ValueError
| NotFittedError
| EOFError.

Definition exn_class (e : exn) : string :=
  match e with
  | FileNotFoundError => "FileNotFoundError"
  | PermissionError => "PermissionError"
  | UnicodeDecodeError => "UnicodeDecodeError"
  | EmptyDataError => "EmptyDataError"
  | ParserError => "ParserError"
  | KeyError _ => "KeyError"
  | AttributeError => "AttributeError"
  | IndexError => "IndexError"
  | ValueError => "ValueError"
  | NotFittedError => "NotFittedError"
  | EOFError => "EOFError"
  end.

Inductive result (A : Type) : Type :=
| Ok (a : A)
| Raise (e : exn).
Arguments Ok {A} a.
Arguments Raise {A} e.

(** What the program writes to the terminal, one constructor per [print] or
    [input] prompt of the source. *)
Inductive event : Type :=
| ErrorReadingFile (e : exn)
| ErrorProcessingData (e : exn)
| ErrorSearchingVerses (e : exn)
| ErrorInFrequencyAnalysis (e : exn)
| CurrentTextBeingProcessed (c : cell)
| Menu
| PromptOption
| PromptFruitName
| RelatedVersesHeader
| VerseLine (surah verse_number verse_text : cell)
| NoVersesFound
| FrequenciesHeader
| FrequencyLine (fruit : pystr) (count : nat)
| ProgramEnded
| InvalidOption
| GeneralProgramError (e : exn).

(** A computation: the lines printed so far and a value or a raised
    exception. *)
Definition M (A : Type) : Type := (list event * result A)%type.

Definition ret {A} (a : A) : M A := ([], Ok a).
Definition raise {A} (e : exn) : M A := ([], Raise e).
Definition print (ev : event) : M unit := ([ev], Ok tt).
Definition lift {A} (r : result A) : M A := ([], r).

Definition bind {A B} (m : M A) (k : A -> M B) : M B :=
  match m with
  | (out, Ok a) => let (out', r) := k a in (out ++ out', r)
  | (out, Raise e) => (out, Raise e)
  end.

(** [try: m except Exception as e: handler e] *)
Definition try_except {A} (m : M A) (handler : exn -> M A) : M A :=
  match m with
  | (out, Ok a) => (out, Ok a)
  | (out, Raise e) => let (out', r) := handler e in (out ++ out', r)
  end.

Declare Scope py_scope.
Delimit Scope py_scope with py.
Notation "x <- m ;; k" := (bind m (fun x => k))
  (at level 100, m at next level, right associativity) : py_scope.
Notation "m ;;; k" := (bind m (fun _ => k))
  (at level 100, right associativity) : py_scope.
Open Scope py_scope.

(** [for x in l: acc = body acc x], stopping at the first exception. *)
Fixpoint for_each {A S} (l : list A) (body : S -> A -> M S) (acc : S) : M S :=
  match l with
  | [] => ret acc
  | x :: l' => acc' <- body acc x ;; for_each l' body acc'
  end.

(** ** Tables: the part of pandas the program uses *)

Inductive dtype : Type := DObject | DNumeric.

Record Series : Type := mkSeries
  { s_dtype : dtype;
    s_values : list cell }.

(** A table: named, typed columns and the rows, each a list of cells aligned
    with the columns. *)
Record DataFrame : Type := mkDataFrame
  { columns : list (string * dtype);
    rows : list (list cell) }.

(** [pd.DataFrame()] *)
Definition empty_frame : DataFrame := mkDataFrame [] [].

Fixpoint col_index (name : string) (cols : list (string * dtype)) : option nat :=
  match cols with
  | [] => None
  | (n, _) :: cols' =>
      if String.eqb name n then Some 0 else option_map S (col_index name cols')
  end.

Definition cell_at (i : nat) (row : list cell) : cell := nth i row NaN.

Fixpoint set_nth {A} (i : nat) (x : A) (l : list A) : list A :=
  match l, i with
  | [], _ => []
  | _ :: l', O => x :: l'
  | y :: l', S i' => y :: set_nth i' x l'
  end.

(** [df[name]] *)
Definition getitem (df : DataFrame) (name : string) : result Series :=
  match col_index name (columns df) with
  | None => Raise (KeyError name)
  | Some i =>
      Ok (mkSeries (snd (nth i (columns df) (name, DObject)))
                   (map (cell_at i) (rows df)))
  end.

(** [df[name] = s], for a series as long as the table. *)
Definition setitem (df : DataFrame) (name : string) (s : Series) : DataFrame :=
  match col_index name (columns df) with
  | Some i =>
      mkDataFrame (set_nth i (name, s_dtype s) (columns df))
                  (map (fun rc => set_nth i (snd rc) (fst rc))
                       (combine (rows df) (s_values s)))
  | None =>
      mkDataFrame (columns df ++ [(name, s_dtype s)])
                  (map (fun rc => fst rc ++ [snd rc])
                       (combine (rows df) (s_values s)))
  end.

(** [df.dropna()]: the rows without any missing cell. *)
Definition dropna (df : DataFrame) : DataFrame :=
  mkDataFrame (columns df) (filter (forallb notna) (rows df)).

(** [s.apply(f)] for an [f] that returns strings: the result holds strings;
    an empty series keeps its dtype. *)
Definition apply_str (f : cell -> pystr) (s : Series) : Series :=
  mkSeries (match s_values s with [] => s_dtype s | _ :: _ => DObject end)
           (map (fun c => Str (f c)) (s_values s)).

(** [df.iloc[indices]]: the rows at the given positions. *)
Fixpoint take_rows (rs : list (list cell)) (indices : list nat) : result (list (list cell)) :=
  match indices with
  | [] => Ok []
  | i :: indices' =>
      match nth_error rs i, take_rows rs indices' with
      | Some r, Ok rs' => Ok (r :: rs')
      | _, _ => Raise IndexError
      end
  end.

Definition iloc (df : DataFrame) (indices : list nat) : result DataFrame :=
  match take_rows (rows df) indices with
  | Ok rs => Ok (mkDataFrame (columns df) rs)
  | Raise e => Raise e
  end.

(** [s.iloc[0]] *)
Definition iloc0 (s : Series) : result cell :=
  match s_values s with
  | [] => Raise IndexError
  | c :: _ => Ok c
  end.

(** [df[mask]] for a boolean mask. *)
Fixpoint select {A} (l : list A) (mask : list bool) : list A :=
  match l, mask with
  | x :: l', b :: mask' => if b then x :: select l' mask' else select l' mask'
  | _, _ => []
  end.

Definition boolean_filter (df : DataFrame) (mask : list bool) : DataFrame :=
  mkDataFrame (columns df) (select (rows df) mask).

(** [a & b] on boolean series. *)
Fixpoint mask_and (a b : list bool) : list bool :=
  match a, b with
  | x :: a', y :: b' => (x && y) :: mask_and a' b'
  | _, _ => []
  end.

(** [df.empty]: some axis has length zero. *)
Definition frame_empty (df : DataFrame) : bool :=
  match columns df, rows df with
  | _ :: _, _ :: _ => false
  | _, _ => true
  end.

(** The [.str] accessor: pandas accepts a series whose inferred type is
    string, empty or mixed, and raises AttributeError otherwise.  A series
    of a numeric dtype is refused even when it is empty; an object series is
    accepted when it holds a string or nothing but missing values. *)
Definition is_str (c : cell) : bool :=
  match c with Str _ => true | _ => false end.

Definition str_accessor (s : Series) : result (list cell) :=
  match s_dtype s with
  | DNumeric => Raise AttributeError
  | DObject =>
      if existsb is_str (s_values s) || negb (existsb notna (s_values s))
      then Ok (s_values s)
      else Raise AttributeError
  end.

(** One element of [s.str.contains(variant, case=False, na=False, regex=True)]. *)
Definition cell_contains (variant : pystr) (c : cell) : bool :=
  match c with
  | Str s => contains variant s
  | _ => false
  end.

(** [mask.sum()] *)
Definition mask_sum (mask : list bool) : nat :=
  List.length (filter (fun b => b) mask).

(** Python's [l[-k:]] for any integer [k]. *)
Definition slice_from_neg {A} (k : Z) (l : list A) : list A :=
  let len := Z.of_nat (List.length l) in
  let start := (- k)%Z in
  let start := if (start <? 0)%Z then Z.max 0 (len + start) else Z.min start len in
  skipn (Z.to_nat start) l.

(** A dict in insertion order: assignment replaces the value of a known key
    and appends a new one. *)
Fixpoint dict_set (d : list (pystr * nat)) (k : pystr) (v : nat) : list (pystr * nat) :=
  match d with
  | [] => [(k, v)]
  | (k', v') :: d' =>
      if pystr_eqb k k' then (k, v) :: d' else (k', v') :: dict_set d' k v
  end.

Fixpoint dict_get (d : list (pystr * nat)) (k : pystr) : option nat :=
  match d with
  | [] => None
  | (k', v) :: d' => if pystr_eqb k k' then Some v else dict_get d' k
  end.

(** ** The fruit lexicon *)

(** The label [Palm/نخل]. *)
Definition PALM : pystr := (ascii_str "Palm/" ++ [0x0646; 0x062E; 0x0644])%N.

(** The label [Grape/عنب]. *)
Definition GRAPE : pystr := (ascii_str "Grape/" ++ [0x0639; 0x0646; 0x0628])%N.

(** The label [Pomegranate/رمان]. *)
Definition POMEGRANATE : pystr := (ascii_str "Pomegranate/" ++ [0x0631; 0x0645; 0x0627; 0x0646])%N.

(** The label [Olive/زيتون]. *)
Definition OLIVE : pystr := (ascii_str "Olive/" ++ [0x0632; 0x064A; 0x062A; 0x0648; 0x0646])%N.

(** The label [Fig/تين]. *)
Definition FIG : pystr := (ascii_str "Fig/" ++ [0x062A; 0x064A; 0x0646])%N.

(** The dictionary [fruit_variations] of the source, in its order; a variant
    is written by its code points, in the order of the source line:
    - [Palm/نخل]: [نخل], [نخيل], [النخل], [النخيل], [نخلة], [ﻧﺨﻞ], [ﻧﺨﯿﻞ]
    - [Grape/عنب]: [عنب], [اعناب], [الأعناب], [العنب], [أعناب], [عنابا]
    - [Pomegranate/رمان]: [رمان], [الرمان], [رمّان], [الرمّان], [رمّانٌ], [والرمّان]
    - [Olive/زيتون]: [زيتون], [الزيتون], [زيتونة], [زيتوناً], [والزيتون]
    - [Fig/تين]: [تين], [التين], [والتين] *)
Definition fruit_variations : list (pystr * list pystr) :=
  [
   (PALM,
    [[0x0646; 0x062E; 0x0644];
     [0x0646; 0x062E; 0x064A; 0x0644];
     [0x0627; 0x0644; 0x0646; 0x062E; 0x0644];
     [0x0627; 0x0644; 0x0646; 0x062E; 0x064A; 0x0644];
     [0x0646; 0x062E; 0x0644; 0x0629];
     [0xFEE7; 0xFEA8; 0xFEDE];
     [0xFEE7; 0xFEA8; 0xFBFF; 0xFEDE]]);
   (GRAPE,
    [[0x0639; 0x0646; 0x0628];
     [0x0627; 0x0639; 0x0646; 0x0627; 0x0628];
     [0x0627; 0x0644; 0x0623; 0x0639; 0x0646; 0x0627; 0x0628];
     [0x0627; 0x0644; 0x0639; 0x0646; 0x0628];
     [0x0623; 0x0639; 0x0646; 0x0627; 0x0628];
     [0x0639; 0x0646; 0x0627; 0x0628; 0x0627]]);
   (POMEGRANATE,
    [[0x0631; 0x0645; 0x0627; 0x0646];
     [0x0627; 0x0644; 0x0631; 0x0645; 0x0627; 0x0646];
     [0x0631; 0x0645; 0x0651; 0x0627; 0x0646];
     [0x0627; 0x0644; 0x0631; 0x0645; 0x0651; 0x0627; 0x0646];
     [0x0631; 0x0645; 0x0651; 0x0627; 0x0646; 0x064C];
     [0x0648; 0x0627; 0x0644; 0x0631; 0x0645; 0x0651; 0x0627; 0x0646]]);
   (OLIVE,
    [[0x0632; 0x064A; 0x062A; 0x0648; 0x0646];
     [0x0627; 0x0644; 0x0632; 0x064A; 0x062A; 0x0648; 0x0646];
     [0x0632; 0x064A; 0x062A; 0x0648; 0x0646; 0x0629];
     [0x0632; 0x064A; 0x062A; 0x0648; 0x0646; 0x0627; 0x064B];
     [0x0648; 0x0627; 0x0644; 0x0632; 0x064A; 0x062A; 0x0648; 0x0646]]);
   (FIG,
    [[0x062A; 0x064A; 0x0646];
     [0x0627; 0x0644; 0x062A; 0x064A; 0x0646];
     [0x0648; 0x0627; 0x0644; 0x062A; 0x064A; 0x0646]])
  ]%N.

(** The number of rows of a column that contain [variant]: [mask.sum()]. *)
Definition variant_count (variant : pystr) (values : list cell) : nat :=
  mask_sum (map (cell_contains variant) values).

(** ** The analyzer *)

Section Analyzer.

(** scikit-learn: the vocabulary learnt by [fit_transform], the TF-IDF row
    of a document and a similarity score; [transform] projects a query on
    a learnt vocabulary and [cosine] is one entry of [cosine_similarity]. *)
Variables Vocab Vec Score : Type.
Variable fit_transform : list pystr -> result (Vocab * list Vec).
Variable transform : Vocab -> pystr -> Vec.
Variable cosine : Vec -> Vec -> Score.

(** numpy: the order on scores and [argsort]. *)
Variable score_leb : Score -> Score -> bool.
Variable argsort : list Score -> list nat.

(** pandas: the file system seen through [read_csv], the parser behind
    [to_numeric] and [str] on a number. *)
Variable read_csv : string -> result DataFrame.
Variable parse_numeric : pystr -> option number.
Variable str_of_number : number -> pystr.

(** The object: [self.df], [self.vectorizer] ([None] until it is fitted)
    and [self.tfidf_matrix] ([None] until [preprocess_data] sets it). *)
Record QuranFruitAnalyzer : Type := mkAnalyzer
  { df : DataFrame;
    vectorizer : option Vocab;
    tfidf_matrix : option (list Vec) }.

(** [pd.to_numeric(s, errors='coerce')] *)
Definition to_numeric_cell (c : cell) : cell :=
  match c with
  | Str s => match parse_numeric s with Some n => Num n | None => NaN end
  | Num n => Num n
  | NaN => NaN
  end.

Definition to_numeric (s : Series) : Series :=
  mkSeries DNumeric (map to_numeric_cell (s_values s)).

(** [s.astype(str)] *)
Definition astype_str (c : cell) : pystr :=
  match c with
  | Str s => s
  | Num n => str_of_number n
  | NaN => ascii_str "nan"
  end.

Definition __init__ (csv_path : string) : M QuranFruitAnalyzer :=
  try_except
    (df0 <- lift (read_csv csv_path) ;;
     let df1 := dropna df0 in
     verse_text <- lift (getitem df1 "verse_text") ;;
     let df2 := setitem df1 "verse_text" (apply_str _normalize_arabic verse_text) in
     verse_number <- lift (getitem df2 "verse_number") ;;
     let df3 := setitem df2 "verse_number" (to_numeric verse_number) in
     ret (mkAnalyzer df3 None None))
    (fun e => print (ErrorReadingFile e) ;;; raise e).

Definition preprocess_data (self : QuranFruitAnalyzer) : M QuranFruitAnalyzer :=
  try_except
    (verse_text <- lift (getitem (df self) "verse_text") ;;
     let texts := map astype_str (s_values verse_text) in
     fitted <- lift (fit_transform texts) ;;
     ret (mkAnalyzer (df self) (Some (fst fitted)) (Some (snd fitted))))
    (fun e => print (ErrorProcessingData e) ;;; raise e).

(** [self.vectorizer.transform([fruit_name])] *)
Definition vectorizer_transform (self : QuranFruitAnalyzer) (text : pystr) : result Vec :=
  match vectorizer self with
  | Some vocab => Ok (transform vocab text)
  | None => Raise NotFittedError
  end.

(** [self.tfidf_matrix] *)
Definition get_tfidf_matrix (self : QuranFruitAnalyzer) : result (list Vec) :=
  match tfidf_matrix self with
  | Some m => Ok m
  | None => Raise AttributeError
  end.

(** [similarity[0].argsort()[-top_n:][::-1]] *)
Definition valid_indices_of (similarity : list Score) (top_n : Z) : list nat :=
  rev (slice_from_neg top_n (argsort similarity)).

Definition find_related_verses (self : QuranFruitAnalyzer) (fruit_name : pystr) (top_n : Z)
  : M DataFrame :=
  try_except
    (query_vec <- lift (vectorizer_transform self fruit_name) ;;
     matrix <- lift (get_tfidf_matrix self) ;;
     let similarity := map (cosine query_vec) matrix in
     let valid_indices := valid_indices_of similarity top_n in
     results <- lift (iloc (df self) valid_indices) ;;
     verse_text <- lift (getitem results "verse_text") ;;
     surah <- lift (getitem results "surah") ;;
     ret (boolean_filter results
            (mask_and (map notna (s_values verse_text)) (map notna (s_values surah)))))
    (fun e => print (ErrorSearchingVerses e) ;;; ret empty_frame).

Definition analyze_fruits_frequency (self : QuranFruitAnalyzer) : M (list (pystr * nat)) :=
  try_except
    (for_each fruit_variations
       (fun fruit_counts entry =>
          let fruit_name := fst entry in
          let variations := snd entry in
          count <- for_each variations
                     (fun count variant =>
                        verse_text <- lift (getitem (df self) "verse_text") ;;
                        values <- lift (str_accessor verse_text) ;;
                        let mask := map (cell_contains variant) values in
                        ret (count + mask_sum mask))
                     0 ;;
          ret (dict_set fruit_counts fruit_name count))
       [])
    (fun e =>
       print (ErrorInFrequencyAnalysis e) ;;;
       verse_text <- lift (getitem (df self) "verse_text") ;;
       first <- lift (iloc0 verse_text) ;;
       print (CurrentTextBeingProcessed first) ;;;
       ret []).

(** [row['surah']], [row['verse_number']], [row['verse_text']] of one row
    of [iterrows]. *)
Definition row_field (cols : list (string * dtype)) (row : list cell) (name : string)
  : result cell :=
  match col_index name cols with
  | Some i => Ok (cell_at i row)
  | None => Raise (KeyError name)
  end.

Definition print_verse (cols : list (string * dtype)) (row : list cell) : M unit :=
  surah <- lift (row_field cols row "surah") ;;
  verse_number <- lift (row_field cols row "verse_number") ;;
  verse_text <- lift (row_field cols row "verse_text") ;;
  print (VerseLine surah verse_number verse_text).

(** The [while True] loop of [main], fed with the lines [input] will
    return; when they run out [input] raises EOFError. *)
Fixpoint menu_loop (analyzer : QuranFruitAnalyzer) (inputs : list pystr) : M unit :=
  print Menu ;;;
  print PromptOption ;;;
  match inputs with
  | [] => raise EOFError
  | choice :: inputs1 =>
      if pystr_eqb choice (ascii_str "1") then
        print PromptFruitName ;;;
        match inputs1 with
        | [] => raise EOFError
        | fruit :: inputs2 =>
            related_verses <- find_related_verses analyzer fruit 5 ;;
            (if negb (frame_empty related_verses) then
               print RelatedVersesHeader ;;;
               for_each (rows related_verses)
                 (fun _ row => print_verse (columns related_verses) row) tt
             else print NoVersesFound) ;;;
            menu_loop analyzer inputs2
        end
      else if pystr_eqb choice (ascii_str "2") then
        frequencies <- analyze_fruits_frequency analyzer ;;
        print FrequenciesHeader ;;;
        for_each frequencies
          (fun _ item => print (FrequencyLine (fst item) (snd item))) tt ;;;
        menu_loop analyzer inputs1
      else if pystr_eqb choice (ascii_str "3") then
        print ProgramEnded
      else
        print InvalidOption ;;;
        menu_loop analyzer inputs1
  end.

Definition main (inputs : list pystr) : M unit :=
  try_except
    (analyzer <- __init__ "quran_verses.csv" ;;
     analyzer <- preprocess_data analyzer ;;
     menu_loop analyzer inputs)
    (fun e => print (GeneralProgramError e)).

End Analyzer.

(** ** An executable instance of the library interface

    The theorems below hold for every TF-IDF implementation, every
    comparison of scores and every sort that meet the contract stated with
    them.  To run the model on concrete tables the
    library side is instantiated by small executable stand-ins: integer
    scores, an ascending insertion sort (one sort that meets the contract
    of [argsort]; the default sort of numpy promises no order for equal
    keys), a vectorizer whose row is the text itself and a parser for
    decimal integers. *)

Fixpoint insert_by_score (x : nat * Z) (l : list (nat * Z)) : list (nat * Z) :=
  match l with
  | [] => [x]
  | y :: l' => if (snd x <=? snd y)%Z then x :: l else y :: insert_by_score x l'
  end.

Definition stable_argsort (scores : list Z) : list nat :=
  map fst (fold_right insert_by_score [] (combine (seq 0 (List.length scores)) scores)).

Fixpoint digits_value (acc : Z) (s : pystr) : option Z :=
  match s with
  | [] => Some acc
  | c :: s' =>
      if ((48 <=? c) && (c <=? 57))%N
      then digits_value (10 * acc + (Z.of_N c - 48))%Z s'
      else None
  end.

Definition parse_decimal (s : pystr) : option number :=
  match s with
  | [] => None
  | _ :: _ => option_map Int (digits_value 0 s)
  end.

Definition demo_fit_transform (texts : list pystr) : result (unit * list pystr) :=
  match texts with
  | [] => Raise ValueError
  | _ :: _ => Ok (tt, texts)
  end.

Definition demo_transform (_ : unit) (text : pystr) : pystr := text.

Definition demo_cosine (query doc : pystr) : Z :=
  if contains query doc then 1%Z else 0%Z.

Definition demo_str_of_number (n : number) : pystr := ascii_str "0".

Definition verse_columns : list (string * dtype) :=
  [("surah"%string, DNumeric); ("verse_number"%string, DNumeric); ("verse_text"%string, DObject)].

(** Texts of the sample files: [والتين والزيتون], [نخل نخيل],
    [فاكهة ونخل ورمان], and the presentation-form spelling [ﻧﺨﻞ]. *)
Definition fig_olive_text : pystr :=
  [0x0648; 0x0627; 0x0644; 0x062A; 0x064A; 0x0646; 0x0020;
   0x0648; 0x0627; 0x0644; 0x0632; 0x064A; 0x062A; 0x0648; 0x0646]%N.
Definition palms_text : pystr :=
  [0x0646; 0x062E; 0x0644; 0x0020; 0x0646; 0x062E; 0x064A; 0x0644]%N.
Definition pomegranate_text : pystr :=
  [0x0641; 0x0627; 0x0643; 0x0647; 0x0629; 0x0020; 0x0648; 0x0646; 0x062E; 0x0644;
   0x0020; 0x0648; 0x0631; 0x0645; 0x0627; 0x0646]%N.
Definition presentation_text : pystr := [0xFEE7; 0xFEA8; 0xFEDE]%N.

(** A file system with a few tables, as [read_csv] returns them:
    - quran_verses.csv: three complete rows and one without a surah;
    - palms.csv: one row mentioning two variants of the palm;
    - blank_text.csv: one row whose verse_text is blank, so that the column
      is read as a float column of missing values;
    - bad_number.csv: one row whose verse_number is not a number;
    - presentation.csv: one row spelt in presentation forms;
    every other path is a missing file. *)
Definition demo_read_csv (path : string) : result DataFrame :=
  if String.eqb path "quran_verses.csv" then
    Ok (mkDataFrame verse_columns
          [[Num (Int 95); Num (Int 1); Str fig_olive_text];
           [NaN; Num (Int 2); Str palms_text];
           [Num (Int 6); Num (Int 99); Str pomegranate_text];
           [Num (Int 6); Num (Int 141); Str palms_text]])
  else if String.eqb path "palms.csv" then
    Ok (mkDataFrame verse_columns
          [[Num (Int 6); Num (Int 99); Str palms_text]])
  else if String.eqb path "blank_text.csv" then
    Ok (mkDataFrame
          [("surah"%string, DNumeric); ("verse_number"%string, DNumeric);
           ("verse_text"%string, DNumeric)]
          [[Num (Int 1); Num (Int 1); NaN]])
  else if String.eqb path "bad_number.csv" then
    Ok (mkDataFrame
          [("surah"%string, DNumeric); ("verse_number"%string, DObject);
           ("verse_text"%string, DObject)]
          [[Num (Int 1); Str (ascii_str "abc"); Str fig_olive_text]])
  else if String.eqb path "presentation.csv" then
    Ok (mkDataFrame verse_columns
          [[Num (Int 6); Num (Int 99); Str presentation_text]])
  else Raise FileNotFoundError.

(** A directory without any file. *)
Definition no_files (path : string) : result DataFrame := Raise FileNotFoundError.

(** A directory in which every file is the table of blank_text.csv. *)
Definition blank_text_files (path : string) : result DataFrame :=
  demo_read_csv "blank_text.csv".

(** A directory in which every file is a table without a surah column. *)
Definition no_surah_files (path : string) : result DataFrame :=
  Ok (mkDataFrame
        [("verse_number"%string, DNumeric); ("verse_text"%string, DObject)]
        [[Num (Int 1); Str fig_olive_text]; [Num (Int 99); Str palms_text]]).

(** The analyzer [QuranFruitAnalyzer(path)] over the sample files. *)
Definition demo_init (path : string) : M (QuranFruitAnalyzer unit pystr) :=
  __init__ unit pystr demo_read_csv parse_decimal path.

(** The analyzer after [preprocess_data()]. *)
Definition demo_built (path : string) : M (QuranFruitAnalyzer unit pystr) :=
  analyzer <- demo_init path ;; preprocess_data demo_fit_transform demo_str_of_number analyzer.

(** ** Definitions used to state the properties *)

(** The variants the normalizer cannot leave in a text: the diacritics it
    deletes and the letters it rewrites to another letter. *)
Definition normalizer_changes (c : codepoint) : bool :=
  (is_diacritic c || (c =? ALEF_HAMZA_BELOW) || (c =? ALEF_HAMZA_ABOVE) ||
   (c =? ALEF_MADDA) || (c =? ALEF_MAKSURA) || (c =? TEH_MARBUTA))%N.

(** The Unicode blocks Arabic Presentation Forms-A and -B. *)
Definition is_presentation_form (c : codepoint) : bool :=
  ((0xFB50 <=? c) && (c <=? 0xFDFF) || (0xFE70 <=? c) && (c <=? 0xFEFF))%N.

(** A rectangular table: every row has one cell per column. *)
Definition well_formed (df : DataFrame) : bool :=
  forallb (fun row => List.length row =? List.length (columns df)) (rows df).


(** The total of a category: the sum of the counts of its variants. *)
Definition category_count (variations : list pystr) (values : list cell) : nat :=
  fold_left (fun count variant => count + variant_count variant values) variations 0.

(** The number of variants of a category that one row matches. *)
Definition matching_variants (variations : list pystr) (c : cell) : nat :=
  List.length (filter (fun variant => cell_contains variant c) variations).

(** The dictionary the counter builds when no exception occurs. *)
Definition frequency_table (values : list cell) : list (pystr * nat) :=
  fold_left
    (fun fruit_counts entry =>
       dict_set fruit_counts (fst entry) (category_count (snd entry) values))
    fruit_variations [].

(** What the loader makes of a complete raw row, with verse_text in column
    [i] and verse_number in column [j]. *)
Definition loaded_row (parse_numeric : pystr -> option number) (i j : nat)
  (row : list cell) : list cell :=
  let row := set_nth i (Str (_normalize_arabic (cell_at i row))) row in
  set_nth j (to_numeric_cell parse_numeric (cell_at j row)) row.

(** The ways the file at [path] can defeat the loader, with the exception
    each one raises: [read_csv] fails (missing, unreadable or unparseable
    file), or the table lacks one of the two columns the loader rewrites. *)
Definition load_failure (read_csv : string -> result DataFrame)
  (path : string) (e : exn) : Prop :=
  read_csv path = Raise e \/
  exists raw,
    read_csv path = Ok raw /\
    ((col_index "verse_text" (columns raw) = None /\ e = KeyError "verse_text") \/
     (col_index "verse_text" (columns raw) <> None /\
      col_index "verse_number" (columns raw) = None /\ e = KeyError "verse_number")).

(** The score at position [i] is at most the score at position [j]. *)
Definition score_le_at {Score} (score_leb : Score -> Score -> bool)
  (similarity : list Score) (i j : nat) : Prop :=
  match nth_error similarity i, nth_error similarity j with
  | Some x, Some y => score_leb x y = true
  | _, _ => False
  end.

(** The documents at positions [i] and [j] have equal scores. *)
Definition score_tied_at {Score} (score_leb : Score -> Score -> bool)
  (similarity : list Score) (i j : nat) : Prop :=
  score_le_at score_leb similarity i j /\ score_le_at score_leb similarity j i.

(** [x] stands before [y] in the list [l]. *)
Definition comes_before {A} (l : list A) (x y : A) : Prop :=
  exists l1 l2 l3, l = l1 ++ x :: l2 ++ y :: l3.

(** The rows of a table at the given positions. *)
Definition rows_at (df : DataFrame) (indices : list nat) : list (list cell) :=
  map (fun i => nth i (rows df) []) indices.

(** What the last three substitutions do to one character. *)
Definition normalize_char (c : codepoint) : codepoint :=
  let c := if is_alef_form c then ALEF else c in
  let c := if is_yeh_form c then YEH else c in
  if (c =? TEH_MARBUTA)%N then HEH else c.

(** Ascending scores, and ascending positions among equal scores. *)
Definition score_then_index (x y : nat * Z) : Prop :=
  (snd x < snd y)%Z \/ (snd x = snd y /\ fst x < fst y).

(** The query [نخل]. *)
Definition palm_query : pystr := [0x0646; 0x062E; 0x0644]%N.

(** The choices the menu knows: 1, 2 and 3. *)
Definition is_menu_option (choice : pystr) : bool :=
  pystr_eqb choice (ascii_str "1") || pystr_eqb choice (ascii_str "2") ||
  pystr_eqb choice (ascii_str "3").

(** The line printed for a record whose surah, verse_number and verse_text
    are in the columns [k], [j] and [i]. *)
Definition verse_line (k j i : nat) (row : list cell) : event :=
  VerseLine (cell_at k row) (cell_at j row) (cell_at i row).

(** * Properties *)

Unset Implicit Arguments.

(** ** The normalizer *)

Lemma normalize_arabic_chars (s : pystr) :
  _normalize_arabic (Str s) =
  map normalize_char (filter (fun c => negb (is_diacritic c)) s).
Proof.
  unfold _normalize_arabic, normalize_teh_marbuta, normalize_yeh, normalize_alef,
    remove_diacritics.
  now rewrite !map_map.
Qed.

(** The image of a character: one of the three canonical letters, or the
    character itself when no substitution applies. *)
Lemma normalize_char_cases (c : codepoint) :
  normalize_char c = ALEF \/ normalize_char c = YEH \/ normalize_char c = HEH \/
  (normalize_char c = c /\ is_alef_form c = false /\ is_yeh_form c = false /\
   (c =? TEH_MARBUTA)%N = false).
Proof.
  unfold normalize_char.
  destruct (is_alef_form c) eqn:Ha; [now left |].
  destruct (is_yeh_form c) eqn:Hy; [now right; left |].
  destruct (c =? TEH_MARBUTA)%N eqn:Ht; [now right; right; left |].
  now right; right; right.
Qed.

Lemma normalize_char_not_diacritic (c : codepoint) :
  is_diacritic c = false -> is_diacritic (normalize_char c) = false.
Proof.
  intros Hc.
  destruct (normalize_char_cases c) as [-> | [-> | [-> | [-> _]]]];
    trivial.
Qed.

Lemma normalize_char_idempotent (c : codepoint) :
  normalize_char (normalize_char c) = normalize_char c.
Proof.
  destruct (normalize_char_cases c) as [-> | [-> | [-> | [Hc [Ha [Hy Ht]]]]]];
    try reflexivity.
  rewrite Hc. unfold normalize_char. now rewrite Ha, Hy, Ht.
Qed.

Lemma normalize_arabic_no_diacritic (s : pystr) :
  forallb (fun c => negb (is_diacritic c)) (_normalize_arabic (Str s)) = true.
Proof.
  rewrite normalize_arabic_chars, forallb_forall.
  intros c Hin. apply in_map_iff in Hin. destruct Hin as [c0 [<- Hin]].
  apply filter_In in Hin. destruct Hin as [_ Hc0].
  apply negb_true_iff in Hc0. now rewrite normalize_char_not_diacritic.
Qed.

Lemma filter_all_true {A} (f : A -> bool) (l : list A) :
  forallb f l = true -> filter f l = l.
Proof.
  induction l as [| x l IH]; simpl; [reflexivity |].
  intros H. apply andb_true_iff in H. destruct H as [Hx Hl].
  now rewrite Hx, IH.
Qed.

(** C4. The normalizer is idempotent: normalizing an already normalized
    string gives the same string, for every string [s]. *)
Theorem normalize_arabic_idempotent (s : pystr) :
  _normalize_arabic (Str (_normalize_arabic (Str s))) = _normalize_arabic (Str s).
Proof.
  rewrite (normalize_arabic_chars (_normalize_arabic (Str s))).
  rewrite (filter_all_true _ _ (normalize_arabic_no_diacritic s)).
  rewrite normalize_arabic_chars, map_map.
  apply map_ext. intros c. apply normalize_char_idempotent.
Qed.

(** C9. The normalizer is total on arbitrary cell values: on every input
    that is not a string (a number of any kind, or the missing value NaN) it
    returns the empty string; being a total function it raises nothing. *)
Theorem normalize_arabic_non_text (v : cell) :
  is_str v = false -> _normalize_arabic v = [].
Proof.
  destruct v; simpl; intros H; [reflexivity | discriminate | reflexivity].
Qed.

(** C9 at the number 5 and at NaN. *)
Lemma normalize_arabic_non_text_witness :
  _normalize_arabic (Num (Int 5)) = [] /\ _normalize_arabic NaN = [].
Proof.
  split; apply normalize_arabic_non_text; reflexivity.
Defined.

(** ** The monad of printed lines and exceptions *)

Lemma bind_ret_l {A B} (a : A) (k : A -> M B) : bind (ret a) k = k a.
Proof. unfold bind, ret. now destruct (k a). Qed.

Lemma bind_lift_ok {A B} (a : A) (k : A -> M B) : bind (lift (Ok a)) k = k a.
Proof. apply bind_ret_l. Qed.

Lemma bind_lift_raise {A B} (e : exn) (k : A -> M B) :
  bind (lift (Raise e)) k = raise e.
Proof. reflexivity. Qed.

Lemma bind_ext {A B} (m : M A) (k k' : A -> M B) :
  (forall a, k a = k' a) -> bind m k = bind m k'.
Proof.
  intros H. destruct m as [out [a | e]]; simpl; [now rewrite H | reflexivity].
Qed.

Lemma for_each_ext {A S} (l : list A) (body body' : S -> A -> M S) (acc : S) :
  (forall acc x, In x l -> body acc x = body' acc x) ->
  for_each l body acc = for_each l body' acc.
Proof.
  revert acc. induction l as [| x l IH]; intros acc H; cbn [for_each];
    [reflexivity |].
  rewrite (H acc x (or_introl eq_refl)).
  apply bind_ext. intros acc'. apply IH.
  intros acc0 y Hy. apply H. now right.
Qed.

Lemma for_each_ret {A S} (l : list A) (f : S -> A -> S) (acc : S) :
  for_each l (fun acc x => ret (f acc x)) acc = ret (fold_left f l acc).
Proof.
  revert acc. induction l as [| x l IH]; intros acc; cbn [for_each fold_left];
    [reflexivity |].
  now rewrite bind_ret_l.
Qed.

(** ** Substring search *)

Lemma starts_with_In (pat s : pystr) (c : codepoint) :
  starts_with pat s = true -> In c pat -> In c s.
Proof.
  revert s. induction pat as [| p pat IH]; intros s H Hin; [contradiction |].
  destruct s as [| d s]; simpl in H; [discriminate |].
  apply andb_true_iff in H. destruct H as [Hp Hs].
  apply N.eqb_eq in Hp. subst d.
  destruct Hin as [-> | Hin]; [now left | right; now apply IH].
Qed.

(** A pattern that occurs in [s] only uses characters of [s]. *)
Lemma contains_In (pat s : pystr) (c : codepoint) :
  contains pat s = true -> In c pat -> In c s.
Proof.
  induction s as [| d s IH]; simpl; intros H Hin.
  - rewrite orb_false_r in H. destruct pat; [contradiction | discriminate].
  - apply orb_true_iff in H. destruct H as [H | H].
    + now apply (starts_with_In pat (d :: s)).
    + right. now apply IH.
Qed.

Lemma starts_with_app (pat post : pystr) : starts_with pat (pat ++ post) = true.
Proof.
  induction pat as [| p pat IH]; simpl; [reflexivity |].
  now rewrite N.eqb_refl, IH.
Qed.

Lemma starts_with_prefix (pat s : pystr) :
  starts_with pat s = true -> exists post, s = pat ++ post.
Proof.
  revert s. induction pat as [| p pat IH]; intros s H; [now exists s |].
  destruct s as [| d s]; simpl in H; [discriminate |].
  apply andb_true_iff in H. destruct H as [Hp Hs].
  apply N.eqb_eq in Hp. subst d.
  destruct (IH s Hs) as [post ->]. now exists post.
Qed.

Lemma starts_with_contains (pat s : pystr) :
  starts_with pat s = true -> contains pat s = true.
Proof.
  intros H. destruct s; cbn [contains]; now rewrite H.
Qed.

(** [contains] finds every occurrence: it is the substring relation. *)
Lemma contains_iff (pat s : pystr) :
  contains pat s = true <-> exists pre post, s = pre ++ pat ++ post.
Proof.
  split.
  - induction s as [| d s IH]; simpl; intros H.
    + rewrite orb_false_r in H. destruct pat; [| discriminate].
      now exists [], [].
    + apply orb_true_iff in H. destruct H as [H | H].
      * destruct (starts_with_prefix pat (d :: s) H) as [post Hpost].
        exists [], post. exact Hpost.
      * destruct (IH H) as [pre [post ->]]. now exists (d :: pre), post.
  - intros [pre [post ->]].
    induction pre as [| d pre IH].
    + apply starts_with_contains. exact (starts_with_app pat post).
    + cbn [app contains]. rewrite IH. apply orb_true_r.
Qed.

(** ** The frequency counter *)

Lemma variant_count_single (variant text : pystr) :
  variant_count variant [Str text] = if contains variant text then 1 else 0.
Proof.
  unfold variant_count, mask_sum. simpl. now destruct (contains variant text).
Qed.

Lemma variant_count_nil (variant : pystr) : variant_count variant [] = 0.
Proof. reflexivity. Qed.

Lemma category_count_acc (variations : list pystr) (values : list cell) (acc : nat) :
  fold_left (fun count variant => count + variant_count variant values) variations acc =
  acc + category_count variations values.
Proof.
  unfold category_count. revert acc.
  induction variations as [| v vs IH]; intros acc; simpl; [lia |].
  rewrite IH, (IH (variant_count v values)). lia.
Qed.

Lemma category_count_cons (v : pystr) (vs : list pystr) (values : list cell) :
  category_count (v :: vs) values = variant_count v values + category_count vs values.
Proof.
  unfold category_count at 1. simpl. apply category_count_acc.
Qed.

Lemma category_count_nil_variations (values : list cell) :
  category_count [] values = 0.
Proof. reflexivity. Qed.

Lemma category_count_nil_values (variations : list pystr) :
  category_count variations [] = 0.
Proof.
  induction variations as [| v vs IH]; [reflexivity |].
  now rewrite category_count_cons, IH.
Qed.

(** On a single row a category counts its matching variants, one each. *)
Lemma category_count_single (variations : list pystr) (text : pystr) :
  category_count variations [Str text] =
  List.length (filter (fun v => contains v text) variations).
Proof.
  induction variations as [| v vs IH]; [reflexivity |].
  rewrite category_count_cons, variant_count_single, IH. simpl.
  now destruct (contains v text).
Qed.

Lemma variant_count_cons (variant : pystr) (c : cell) (values : list cell) :
  variant_count variant (c :: values) =
  (if cell_contains variant c then 1 else 0) + variant_count variant values.
Proof.
  unfold variant_count, mask_sum. cbn [map filter].
  now destruct (cell_contains variant c).
Qed.

Lemma list_sum_cons_eq (n : nat) (l : list nat) :
  list_sum (n :: l) = n + list_sum l.
Proof. reflexivity. Qed.

Lemma matching_variants_cons (v : pystr) (vs : list pystr) (c : cell) :
  matching_variants (v :: vs) c =
  (if cell_contains v c then 1 else 0) + matching_variants vs c.
Proof.
  unfold matching_variants. cbn [filter]. now destruct (cell_contains v c).
Qed.

(** A category counts every row once per variant the row matches. *)
Lemma category_count_rows (variations : list pystr) (values : list cell) :
  category_count variations values =
  list_sum (map (matching_variants variations) values).
Proof.
  induction variations as [| v vs IH].
  - unfold matching_variants. cbn [filter List.length].
    rewrite category_count_nil_variations.
    induction values as [| c values IHv]; [reflexivity | exact IHv].
  - rewrite category_count_cons, IH. clear IH.
    induction values as [| c values IHv]; [reflexivity |].
    rewrite variant_count_cons. cbn [map].
    rewrite !list_sum_cons_eq, <- IHv, matching_variants_cons. lia.
Qed.

Lemma frequency_table_map (values : list cell) :
  frequency_table values =
  map (fun entry => (fst entry, category_count (snd entry) values)) fruit_variations.
Proof. reflexivity. Qed.

Lemma frequency_table_get (values : list cell) (label : pystr) (variations : list pystr) :
  In (label, variations) fruit_variations ->
  dict_get (frequency_table values) label = Some (category_count variations values).
Proof.
  rewrite frequency_table_map. unfold fruit_variations.
  intros H. repeat (destruct H as [H | H]; [inversion H; subst; reflexivity |]).
  contradiction.
Qed.

Ltac prove_NoDup :=
  repeat (constructor; [cbn [In]; intuition discriminate |]); constructor.

Lemma fruit_variations_NoDup (label : pystr) (variations : list pystr) :
  In (label, variations) fruit_variations -> NoDup variations.
Proof.
  unfold fruit_variations.
  intros H. repeat (destruct H as [H | H]; [inversion H; subst; prove_NoDup |]).
  contradiction.
Qed.

Section FrequencyCounter.

Variables Vocab Vec : Type.
Variable self : QuranFruitAnalyzer Vocab Vec.

(** When the [.str] accessor accepts the verse_text column, the counter
    prints nothing and returns the table of the five categories. *)
Lemma analyze_fruits_frequency_ok (verse_text : Series) (values : list cell) :
  getitem (df self) "verse_text" = Ok verse_text ->
  str_accessor verse_text = Ok values ->
  analyze_fruits_frequency self = ([], Ok (frequency_table values)).
Proof.
  intros Hget Hstr. unfold analyze_fruits_frequency.
  rewrite (for_each_ext fruit_variations _
             (fun fruit_counts entry =>
                ret (dict_set fruit_counts (fst entry)
                       (category_count (snd entry) values)))).
  - rewrite for_each_ret. reflexivity.
  - intros fruit_counts entry _.
    rewrite (for_each_ext (snd entry) _
               (fun count variant => ret (count + variant_count variant values))).
    + rewrite for_each_ret, bind_ret_l, category_count_acc. reflexivity.
    + intros count variant _. rewrite Hget, bind_lift_ok, Hstr, bind_lift_ok.
      reflexivity.
Qed.

(** When the accessor refuses the column, the handler runs: it prints the
    error and then reads the first verse for its debug line. *)
Lemma analyze_fruits_frequency_handler (verse_text : Series) (e : exn) :
  getitem (df self) "verse_text" = Ok verse_text ->
  str_accessor verse_text = Raise e ->
  analyze_fruits_frequency self =
  match iloc0 verse_text with
  | Ok first => ([ErrorInFrequencyAnalysis e; CurrentTextBeingProcessed first], Ok [])
  | Raise e' => ([ErrorInFrequencyAnalysis e], Raise e')
  end.
Proof.
  intros Hget Hstr. unfold analyze_fruits_frequency, fruit_variations.
  cbn [for_each fst snd]. rewrite Hget, bind_lift_ok, Hstr.
  cbn [bind lift try_except print app].
  destruct (iloc0 verse_text); reflexivity.
Qed.

End FrequencyCounter.

Section FrequencyProperties.

Variables Vocab Vec : Type.
Variable self : QuranFruitAnalyzer Vocab Vec.

(** C5. Double counting across variants.  On a corpus whose verse_text
    column holds strings, the counter returns a dictionary in which a
    category counts every row once per variant of the category that the
    row contains, without deduplication across variants.  So, on a corpus
    of a single row whose text contains two distinct variants [v1] and [v2]
    of the category, the count is at least 2, and it is exactly 2 when
    [v1] and [v2] are the variants that occur. *)
Theorem double_counting_across_variants
  (verse_text : Series) (values : list cell) (label : pystr) (variations : list pystr) :
  getitem (df self) "verse_text" = Ok verse_text ->
  str_accessor verse_text = Ok values ->
  In (label, variations) fruit_variations ->
  exists fruit_counts count,
    analyze_fruits_frequency self = ([], Ok fruit_counts) /\
    dict_get fruit_counts label = Some count /\
    count = list_sum (map (matching_variants variations) values) /\
    forall text v1 v2,
      values = [Str text] ->
      In v1 variations -> In v2 variations -> v1 <> v2 ->
      contains v1 text = true -> contains v2 text = true ->
      2 <= count /\
      ((forall v, In v variations -> contains v text = true -> v = v1 \/ v = v2) ->
       count = 2).
Proof.
  intros Hget Hstr Hin.
  exists (frequency_table values), (category_count variations values).
  split; [now apply (analyze_fruits_frequency_ok _ _ self verse_text) |].
  split; [now apply frequency_table_get |].
  split; [apply category_count_rows |].
  intros text v1 v2 -> Hv1 Hv2 Hne Hc1 Hc2.
  rewrite category_count_single.
  set (matching := filter (fun v => contains v text) variations).
  assert (Hnd : NoDup matching)
    by (apply NoDup_filter, (fruit_variations_NoDup _ _ Hin)).
  assert (Hm1 : In v1 matching) by (apply filter_In; now split).
  assert (Hm2 : In v2 matching) by (apply filter_In; now split).
  assert (Hge : 2 <= List.length matching).
  { apply (NoDup_incl_length (l := [v1; v2])).
    - constructor; [simpl; intuition congruence | constructor; [easy | constructor]].
    - intros v [<- | [<- | []]]; assumption. }
  split; [exact Hge |].
  intros Honly. apply Nat.le_antisymm; [| exact Hge].
  apply (NoDup_incl_length (l' := [v1; v2]) Hnd).
  intros v Hv. apply filter_In in Hv. destruct Hv as [Hv Hc].
  destruct (Honly v Hv Hc) as [-> | ->]; simpl; auto.
Qed.

(** On an empty corpus whose verse_text column holds strings (an object
    column, as when the file has a header and no rows), the counter
    raises nothing and maps each of the five categories to 0. *)
Lemma analyze_fruits_frequency_empty_object :
  getitem (df self) "verse_text" = Ok (mkSeries DObject []) ->
  analyze_fruits_frequency self =
  ([], Ok [(PALM, 0); (GRAPE, 0); (POMEGRANATE, 0); (OLIVE, 0); (FIG, 0)]).
Proof.
  intros Hget.
  rewrite (analyze_fruits_frequency_ok _ _ self (mkSeries DObject []) []);
    [reflexivity | exact Hget | reflexivity].
Qed.

(** On an empty corpus whose verse_text column has a numeric dtype, the
    [.str] accessor raises AttributeError, the handler prints it and its
    debug line then indexes the first row of an empty column: IndexError
    leaves the method. *)
Lemma analyze_fruits_frequency_empty_numeric :
  getitem (df self) "verse_text" = Ok (mkSeries DNumeric []) ->
  analyze_fruits_frequency self =
  ([ErrorInFrequencyAnalysis AttributeError], Raise IndexError).
Proof.
  intros Hget.
  now rewrite (analyze_fruits_frequency_handler _ _ self (mkSeries DNumeric [])
                 AttributeError Hget eq_refl).
Qed.

End FrequencyProperties.

(** C5 on the single row [نخل نخيل]: the palm category counts 2. *)
Lemma double_counting_across_variants_witness :
  exists fruit_counts count,
    analyze_fruits_frequency
      (mkAnalyzer (mkDataFrame verse_columns [[Num (Int 6); Num (Int 99); Str palms_text]])
         (@None unit) (@None (list pystr))) = ([], Ok fruit_counts) /\
    dict_get fruit_counts PALM = Some count /\
    count = 2.
Proof.
  destruct (double_counting_across_variants _ _
              (mkAnalyzer (mkDataFrame verse_columns [[Num (Int 6); Num (Int 99); Str palms_text]])
                 (@None unit) (@None (list pystr)))
              (mkSeries DObject [Str palms_text]) [Str palms_text] PALM _
              eq_refl eq_refl (or_introl eq_refl))
    as [fruit_counts [count [Hrun [Hget [_ Htwo]]]]].
  exists fruit_counts, count. split; [exact Hrun |]. split; [exact Hget |].
  apply (Htwo palms_text [0x0646; 0x062E; 0x0644]%N [0x0646; 0x062E; 0x064A; 0x0644]%N);
    try reflexivity.
  - left. reflexivity.
  - right. left. reflexivity.
  - discriminate.
  - intros v Hv Hc.
    repeat (destruct Hv as [<- | Hv]; [first [now left | now right | discriminate] |]).
    contradiction.
Defined.

(** C7. The counter on an empty corpus.  The file blank_text.csv has one
    row whose verse_text is blank; the loader drops it and leaves an empty
    corpus whose verse_text column is numeric.  On that corpus the counter
    does not return the five categories mapped to 0: it prints the
    AttributeError of the [.str] accessor and raises IndexError from the
    debug line of its handler. *)
Theorem analyze_empty_corpus_raises :
  exists analyzer,
    demo_init "blank_text.csv" = ([], Ok analyzer) /\
    rows (df analyzer) = [] /\
    analyze_fruits_frequency analyzer =
    ([ErrorInFrequencyAnalysis AttributeError], Raise IndexError).
Proof.
  eexists. split; [vm_compute; reflexivity |].
  split; [reflexivity |].
  apply analyze_fruits_frequency_empty_numeric. reflexivity.
Qed.

(** ** Variants the normalizer rules out *)

(** [normalizer_changes] holds of the characters the normalizer deletes or
    rewrites to another character. *)
Lemma normalizer_changes_spec (c : codepoint) :
  normalizer_changes c = is_diacritic c || negb (normalize_char c =? c)%N.
Proof.
  unfold normalizer_changes, normalize_char, is_alef_form, is_yeh_form.
  cbv zeta.
  destruct (is_diacritic c) eqn:Hd; [reflexivity |].
  destruct (N.eqb_spec c ALEF_HAMZA_BELOW) as [-> | H1]; [reflexivity |].
  destruct (N.eqb_spec c ALEF_HAMZA_ABOVE) as [-> | H2]; [reflexivity |].
  destruct (N.eqb_spec c ALEF_MADDA) as [-> | H3]; [reflexivity |].
  destruct (N.eqb_spec c ALEF) as [-> | H4]; [reflexivity |].
  cbn [orb].
  destruct (N.eqb_spec c YEH) as [-> | H5]; [reflexivity |].
  destruct (N.eqb_spec c ALEF_MAKSURA) as [-> | H6]; [reflexivity |].
  cbn [orb].
  destruct (N.eqb_spec c TEH_MARBUTA) as [-> | H7]; [reflexivity |].
  now rewrite N.eqb_refl.
Qed.

(** No such character is left in a normalized text. *)
Lemma normalize_arabic_unchanged_chars (x : cell) (c : codepoint) :
  In c (_normalize_arabic x) -> normalizer_changes c = false.
Proof.
  destruct x as [| s | n]; [contradiction | | contradiction].
  intros Hin. pose proof (normalize_arabic_no_diacritic s) as Hnd.
  rewrite forallb_forall in Hnd. specialize (Hnd c Hin).
  apply negb_true_iff in Hnd.
  rewrite normalize_arabic_chars in Hin. apply in_map_iff in Hin.
  destruct Hin as [c0 [<- _]].
  rewrite normalizer_changes_spec, Hnd, normalize_char_idempotent, N.eqb_refl.
  reflexivity.
Qed.

(** C10, amended.  In a corpus whose verse_text values are outputs of the
    normalizer, a variant containing a character the normalizer deletes or
    rewrites (a diacritic of U+064B..U+065F or U+0670, an alef carrying a
    hamza or a madda, an alef maksura, a teh marbuta) occurs in no row: its
    mask sums to 0 and it adds nothing to the count of its category. *)
Theorem changed_variant_matches_nothing
  (raw : list cell) (variant : pystr) (c : codepoint) :
  In c variant -> normalizer_changes c = true ->
  variant_count variant (map (fun x => Str (_normalize_arabic x)) raw) = 0.
Proof.
  intros Hin Hc. unfold variant_count, mask_sum.
  induction raw as [| x raw IH]; [reflexivity |].
  cbn [map cell_contains].
  destruct (contains variant (_normalize_arabic x)) eqn:Hcont.
  - pose proof (normalize_arabic_unchanged_chars x c (contains_In _ _ _ Hcont Hin)).
    congruence.
  - exact IH.
Qed.

(** C10 amended, at the variant [أعناب] and a row that spells it so. *)
Lemma changed_variant_matches_nothing_witness :
  variant_count [0x0623; 0x0639; 0x0646; 0x0627; 0x0628]%N
    (map (fun x => Str (_normalize_arabic x))
       [Str [0x0623; 0x0639; 0x0646; 0x0627; 0x0628]%N; Num (Int 7)]) = 0.
Proof.
  apply (changed_variant_matches_nothing _ _ 0x0623%N).
  - left. reflexivity.
  - reflexivity.
Defined.

(** C10 fails for the presentation forms: the normalizer leaves them as
    they are, so the palm variant [ﻧﺨﻞ], made of presentation-form letters
    only, matches a normalized row spelt the same way and the palm category
    of presentation.csv counts 1. *)
Lemma presentation_form_variant_matches :
  forallb is_presentation_form presentation_text = true /\
  (exists variations,
     In (PALM, variations) fruit_variations /\ In presentation_text variations) /\
  _normalize_arabic (Str presentation_text) = presentation_text /\
  variant_count presentation_text
    (map (fun x => Str (_normalize_arabic x)) [Str presentation_text]) = 1 /\
  exists analyzer,
    demo_init "presentation.csv" = ([], Ok analyzer) /\
    analyze_fruits_frequency analyzer =
    ([], Ok [(PALM, 1); (GRAPE, 0); (POMEGRANATE, 0); (OLIVE, 0); (FIG, 0)]).
Proof.
  split; [reflexivity |].
  split; [eexists; split; [left; reflexivity | do 5 right; left; reflexivity] |].
  split; [reflexivity |].
  split; [reflexivity |].
  eexists. split; vm_compute; reflexivity.
Qed.

(** ** Tables *)

Lemma set_nth_length {A} (i : nat) (x : A) (l : list A) :
  List.length (set_nth i x l) = List.length l.
Proof.
  revert i. induction l as [| y l IH]; intros [| i]; simpl; auto.
Qed.

Lemma nth_set_nth_eq {A} (i : nat) (x d : A) (l : list A) :
  i < List.length l -> nth i (set_nth i x l) d = x.
Proof.
  revert i. induction l as [| y l IH]; intros [| i] H; simpl in *; try lia; auto.
  apply IH. lia.
Qed.

Lemma nth_set_nth_neq {A} (i j : nat) (x d : A) (l : list A) :
  i <> j -> nth j (set_nth i x l) d = nth j l d.
Proof.
  revert i j. induction l as [| y l IH]; intros [| i] [| j] H; simpl; auto.
  contradiction.
Qed.

Lemma col_index_Some (name : string) (cols : list (string * dtype)) (i : nat) :
  col_index name cols = Some i ->
  i < List.length cols /\ forall d, fst (nth i cols d) = name.
Proof.
  revert i. induction cols as [| [n t] cols IH]; intros i H; simpl in H; [discriminate |].
  destruct (String.eqb_spec name n) as [-> | Hne].
  - inversion H; subst. simpl. split; [lia | reflexivity].
  - destruct (col_index name cols) as [k |]; [| discriminate].
    inversion H; subst. destruct (IH k eq_refl) as [Hlt Hfst].
    simpl. split; [lia | exact Hfst].
Qed.

Lemma col_index_names (name : string) (cols cols' : list (string * dtype)) :
  map fst cols = map fst cols' -> col_index name cols = col_index name cols'.
Proof.
  revert cols'. induction cols as [| [n t] cols IH]; intros [| [n' t'] cols'] H;
    simpl in *; try discriminate; [reflexivity |].
  inversion H; subst. now rewrite (IH cols').
Qed.

Lemma col_index_distinct (n1 n2 : string) (cols : list (string * dtype)) (i j : nat) :
  col_index n1 cols = Some i -> col_index n2 cols = Some j -> n1 <> n2 -> i <> j.
Proof.
  intros H1 H2 Hne ->.
  destruct (col_index_Some _ _ _ H1) as [_ F1].
  destruct (col_index_Some _ _ _ H2) as [_ F2].
  specialize (F1 (n1, DObject)). specialize (F2 (n1, DObject)). congruence.
Qed.

Lemma map_fst_set_nth (name : string) (t : dtype) (cols : list (string * dtype)) (i : nat) :
  col_index name cols = Some i ->
  map fst (set_nth i (name, t) cols) = map fst cols.
Proof.
  revert i. induction cols as [| [n t'] cols IH]; intros i H; simpl in H; [discriminate |].
  destruct (String.eqb_spec name n) as [-> | Hne].
  - inversion H; subst. reflexivity.
  - destruct (col_index name cols) as [k |]; [| discriminate].
    inversion H; subst. simpl. now rewrite (IH k).
Qed.

Lemma map_combine_map {A B C} (g : A * B -> C) (h : A -> B) (l : list A) :
  map g (combine l (map h l)) = map (fun a => g (a, h a)) l.
Proof.
  induction l as [| a l IH]; simpl; [reflexivity | now rewrite IH].
Qed.

(** [df[name] = df[name].apply(f)], row by row. *)
Lemma setitem_getitem (df : DataFrame) (name : string) (col : Series)
  (t : dtype) (f : cell -> cell) :
  getitem df name = Ok col ->
  exists i,
    col_index name (columns df) = Some i /\
    s_values col = map (cell_at i) (rows df) /\
    s_dtype col = snd (nth i (columns df) (name, DObject)) /\
    map fst (columns (setitem df name (mkSeries t (map f (s_values col))))) =
    map fst (columns df) /\
    rows (setitem df name (mkSeries t (map f (s_values col)))) =
    map (fun row => set_nth i (f (cell_at i row)) row) (rows df).
Proof.
  unfold getitem, setitem. intros H.
  destruct (col_index name (columns df)) as [i |] eqn:Hi; [| discriminate].
  inversion H; subst; clear H. exists i. cbn [s_values s_dtype columns rows].
  repeat split.
  - now apply map_fst_set_nth.
  - now rewrite map_map, map_combine_map.
Qed.

(** ** The loader *)

Section LoaderProperties.

Variables Vocab Vec : Type.
Variable read_csv : string -> result DataFrame.
Variable parse_numeric : pystr -> option number.

(** A successful construction: the file was read, both columns exist, the
    incomplete rows are gone and the two columns are rewritten. *)
Lemma init_inv (path : string) (out : list event) (a : QuranFruitAnalyzer Vocab Vec) :
  __init__ Vocab Vec read_csv parse_numeric path = (out, Ok a) ->
  exists raw i j,
    read_csv path = Ok raw /\ out = [] /\
    col_index "verse_text" (columns raw) = Some i /\
    col_index "verse_number" (columns raw) = Some j /\
    map fst (columns (df a)) = map fst (columns raw) /\
    rows (df a) = map (loaded_row parse_numeric i j) (filter (forallb notna) (rows raw)) /\
    vectorizer a = None /\ tfidf_matrix a = None.
Proof.
  unfold __init__. intros H.
  destruct (read_csv path) as [raw | e] eqn:Hread; [| discriminate].
  rewrite bind_lift_ok in H. cbv zeta in H.
  destruct (getitem (dropna raw) "verse_text") as [vt | e] eqn:Hvt; [| discriminate].
  rewrite bind_lift_ok in H.
  destruct (setitem_getitem _ _ _ (match s_values vt with [] => s_dtype vt | _ :: _ => DObject end)
              (fun c => Str (_normalize_arabic c)) Hvt)
    as [i [Hi [_ [_ [Hcols2 Hrows2]]]]].
  change (mkSeries _ (map (fun c => Str (_normalize_arabic c)) (s_values vt)))
    with (apply_str _normalize_arabic vt) in Hcols2, Hrows2.
  set (df2 := setitem (dropna raw) "verse_text" (apply_str _normalize_arabic vt)) in *.
  destruct (getitem df2 "verse_number") as [vn | e] eqn:Hvn; [| discriminate].
  rewrite bind_lift_ok in H.
  destruct (setitem_getitem _ _ _ DNumeric (to_numeric_cell parse_numeric) Hvn)
    as [j [Hj [_ [_ [Hcols3 Hrows3]]]]].
  change (mkSeries DNumeric (map (to_numeric_cell parse_numeric) (s_values vn)))
    with (to_numeric parse_numeric vn) in Hcols3, Hrows3.
  cbn in H. inversion H; subst; clear H.
  exists raw, i, j. cbn [df vectorizer tfidf_matrix].
  repeat split; trivial.
  - rewrite <- Hj. apply col_index_names. now rewrite Hcols2.
  - now rewrite Hcols3, Hcols2.
  - rewrite Hrows3, Hrows2, map_map. reflexivity.
Qed.

(** A failed read: the handler prints the error and raises it again. *)
Lemma init_read_failure (path : string) (e : exn) :
  read_csv path = Raise e ->
  __init__ Vocab Vec read_csv parse_numeric path = ([ErrorReadingFile e], Raise e).
Proof.
  intros H. unfold __init__. now rewrite H.
Qed.

(** pandas tables are rectangular. *)
Hypothesis read_csv_well_formed :
  forall path raw, read_csv path = Ok raw -> well_formed raw = true.

Lemma loaded_row_cells (raw : DataFrame) (i j : nat) (row : list cell) :
  well_formed raw = true ->
  col_index "verse_text" (columns raw) = Some i ->
  col_index "verse_number" (columns raw) = Some j ->
  In row (filter (forallb notna) (rows raw)) ->
  cell_at i (loaded_row parse_numeric i j row) = Str (_normalize_arabic (cell_at i row)) /\
  cell_at j (loaded_row parse_numeric i j row) = to_numeric_cell parse_numeric (cell_at j row) /\
  notna (cell_at j row) = true /\
  forall k, k <> j -> k < List.length (columns raw) ->
            notna (cell_at k (loaded_row parse_numeric i j row)) = true.
Proof.
  intros Hwf Hi Hj Hin.
  apply filter_In in Hin. destruct Hin as [Hin Hna].
  unfold well_formed in Hwf. rewrite forallb_forall in Hwf.
  specialize (Hwf row Hin). apply Nat.eqb_eq in Hwf.
  rewrite forallb_forall in Hna.
  destruct (col_index_Some _ _ _ Hi) as [Hilt _].
  destruct (col_index_Some _ _ _ Hj) as [Hjlt _].
  assert (Hij : i <> j).
  { apply (col_index_distinct _ _ _ _ _ Hi Hj). discriminate. }
  unfold loaded_row, cell_at. cbv zeta.
  repeat split.
  - rewrite nth_set_nth_neq by auto. apply nth_set_nth_eq. lia.
  - rewrite nth_set_nth_eq by (rewrite set_nth_length; lia).
    now rewrite nth_set_nth_neq by auto.
  - apply Hna, nth_In. lia.
  - intros k Hkj Hk. rewrite nth_set_nth_neq by auto.
    destruct (Nat.eq_dec i k) as [<- | Hik].
    + now rewrite nth_set_nth_eq by lia.
    + rewrite nth_set_nth_neq by auto. apply Hna, nth_In. lia.
Qed.

(** C3, amended.  Every record of the corpus the loader produces has a
    present surah and a present verse_text, which is a string; the number
    of loaded records is at most the number of raw rows.  Its
    verse_number was present in the raw row; after the conversion with
    errors='coerce' it is a number, or NaN when the raw value does not
    parse as one. *)
Theorem loader_records
  (path : string) (out : list event) (a : QuranFruitAnalyzer Vocab Vec) :
  __init__ Vocab Vec read_csv parse_numeric path = (out, Ok a) ->
  exists raw,
    read_csv path = Ok raw /\
    List.length (rows (df a)) <= List.length (rows raw) /\
    forall row, In row (rows (df a)) ->
      (forall surah, row_field (columns (df a)) row "surah" = Ok surah ->
                     notna surah = true) /\
      (exists text, row_field (columns (df a)) row "verse_text" = Ok (Str text)) /\
      (exists raw_number,
         notna raw_number = true /\
         row_field (columns (df a)) row "verse_number" =
         Ok (to_numeric_cell parse_numeric raw_number)).
Proof.
  intros H. destruct (init_inv _ _ _ H) as [raw [i [j [Hr [_ [Hi [Hj [Hc [Hrows _]]]]]]]]].
  exists raw. split; [exact Hr |]. split.
  - rewrite Hrows, length_map. apply filter_length_le.
  - intros row Hin. rewrite Hrows in Hin. apply in_map_iff in Hin.
    destruct Hin as [row0 [<- Hin0]].
    destruct (loaded_row_cells raw i j row0 (read_csv_well_formed _ _ Hr) Hi Hj Hin0)
      as [Ht [Hn [Hna Hother]]].
    unfold row_field. rewrite !(col_index_names _ _ _ Hc), Hi, Hj.
    split; [| split].
    + destruct (col_index "surah" (columns raw)) as [k |] eqn:Hk; [| discriminate].
      intros surah E. inversion E; subst.
      destruct (col_index_Some _ _ _ Hk) as [Hklt _].
      apply Hother; [| exact Hklt].
      apply (col_index_distinct _ _ _ _ _ Hk Hj). discriminate.
    + eexists. now rewrite Ht.
    + exists (cell_at j row0). split; [exact Hna | now rewrite Hn].
Qed.

Lemma getitem_missing (d : DataFrame) (name : string) :
  col_index name (columns d) = None -> getitem d name = Raise (KeyError name).
Proof.
  intros H. unfold getitem. now rewrite H.
Qed.

(** Every failure of the file makes the constructor print the error and
    raise the very exception that occurred. *)
Lemma init_failure (path : string) (e : exn) :
  load_failure read_csv path e ->
  __init__ Vocab Vec read_csv parse_numeric path = ([ErrorReadingFile e], Raise e).
Proof.
  intros [H | [raw [Hr [[Ht ->] | [Ht [Hn ->]]]]]].
  - now apply init_read_failure.
  - unfold __init__. rewrite Hr, bind_lift_ok. cbv zeta.
    rewrite (getitem_missing (dropna raw) "verse_text" Ht). reflexivity.
  - unfold __init__. rewrite Hr, bind_lift_ok. cbv zeta.
    destruct (getitem (dropna raw) "verse_text") as [vt | e] eqn:Hvt.
    + rewrite bind_lift_ok.
      destruct (setitem_getitem _ _ _
                  (match s_values vt with [] => s_dtype vt | _ :: _ => DObject end)
                  (fun c => Str (_normalize_arabic c)) Hvt)
        as [i [_ [_ [_ [Hcols _]]]]].
      change (mkSeries _ (map (fun c => Str (_normalize_arabic c)) (s_values vt)))
        with (apply_str _normalize_arabic vt) in Hcols.
      rewrite getitem_missing; [reflexivity |].
      rewrite (col_index_names _ _ _ Hcols). exact Hn.
    + unfold getitem in Hvt. cbn [dropna columns] in Hvt.
      destruct (col_index "verse_text" (columns raw)); [discriminate | contradiction].
Qed.

(** The constructor fails in no other way. *)
Lemma init_failure_inv (path : string) (out : list event) (e : exn) :
  __init__ Vocab Vec read_csv parse_numeric path = (out, Raise e) ->
  load_failure read_csv path e.
Proof.
  unfold __init__, load_failure. intros H.
  destruct (read_csv path) as [raw | e0] eqn:Hr.
  - right. exists raw. split; [reflexivity |].
    rewrite bind_lift_ok in H. cbv zeta in H.
    destruct (getitem (dropna raw) "verse_text") as [vt | e1] eqn:Hvt.
    + right. rewrite bind_lift_ok in H.
      destruct (setitem_getitem _ _ _
                  (match s_values vt with [] => s_dtype vt | _ :: _ => DObject end)
                  (fun c => Str (_normalize_arabic c)) Hvt)
        as [i [Hi [_ [_ [Hcols _]]]]].
      change (mkSeries _ (map (fun c => Str (_normalize_arabic c)) (s_values vt)))
        with (apply_str _normalize_arabic vt) in Hcols.
      cbn [dropna columns] in Hi.
      split; [congruence |].
      destruct (getitem (setitem (dropna raw) "verse_text" (apply_str _normalize_arabic vt))
                  "verse_number") as [vn | e2] eqn:Hvn.
      * rewrite bind_lift_ok in H. cbn in H. discriminate.
      * unfold getitem in Hvn. rewrite (col_index_names _ _ _ Hcols) in Hvn.
        cbn [dropna columns] in Hvn.
        destruct (col_index "verse_number" (columns raw)); [discriminate |].
        cbn in H. inversion H; subst. inversion Hvn; subst. now split.
    + left. unfold getitem in Hvt. cbn [dropna columns] in Hvt.
      destruct (col_index "verse_text" (columns raw)); [discriminate |].
      cbn in H. inversion H; subst. inversion Hvt; subst. now split.
  - left. cbn in H. now inversion H.
Qed.

(** C8, amended.  When the file is missing, unreadable or structurally
    invalid ([read_csv] raises, or the table lacks the verse_text or the
    verse_number column), the loader prints the error and raises the
    underlying exception itself, unchanged: no analyzer and no partial
    corpus is produced.  In [main] this ends the program: whatever the
    user would type, the only lines printed are the two error messages and
    the menu never appears. *)
Theorem loader_failure_is_fatal (path : string) (e : exn) :
  load_failure read_csv path e ->
  __init__ Vocab Vec read_csv parse_numeric path = ([ErrorReadingFile e], Raise e) /\
  (path = "quran_verses.csv"%string ->
   forall (Score : Type) (fit_transform : list pystr -> result (Vocab * list Vec))
          (transform : Vocab -> pystr -> Vec) (cosine : Vec -> Vec -> Score)
          (argsort : list Score -> list nat) (str_of_number : number -> pystr)
          (inputs : list pystr),
     main fit_transform transform cosine argsort
       read_csv parse_numeric str_of_number inputs =
     ([ErrorReadingFile e; GeneralProgramError e], Ok tt)).
Proof.
  intros H. split; [now apply init_failure |].
  intros -> Score fit_transform transform cosine argsort str_of_number inputs.
  unfold main. rewrite (init_failure _ _ H). reflexivity.
Qed.

End LoaderProperties.

(** ** Slices, reversal and positional selection *)

Lemma slice_from_neg_skipn {A} (k : Z) (l : list A) :
  (0 < k)%Z ->
  slice_from_neg k l = skipn (List.length l - Z.to_nat k) l.
Proof.
  intros Hk. unfold slice_from_neg.
  destruct (Z.ltb_spec (- k) 0) as [_ | H]; [| lia].
  f_equal. lia.
Qed.

Lemma slice_from_neg_length {A} (k : Z) (l : list A) :
  (0 < k)%Z ->
  List.length (slice_from_neg k l) = Nat.min (Z.to_nat k) (List.length l).
Proof.
  intros Hk. rewrite slice_from_neg_skipn, length_skipn by exact Hk. lia.
Qed.

Lemma slice_from_neg_all {A} (k : Z) (l : list A) :
  (Z.of_nat (List.length l) <= k)%Z -> (0 < k)%Z -> slice_from_neg k l = l.
Proof.
  intros Hle Hk. rewrite slice_from_neg_skipn by exact Hk.
  replace (List.length l - Z.to_nat k) with 0 by lia. reflexivity.
Qed.

Lemma StronglySorted_skipn {A} (R : A -> A -> Prop) (n : nat) (l : list A) :
  StronglySorted R l -> StronglySorted R (skipn n l).
Proof.
  revert l. induction n as [| n IH]; intros l H; [exact H |].
  destruct l as [| x l]; [exact H |].
  simpl. apply IH. now inversion H.
Qed.

Lemma StronglySorted_app_rev {A} (R : A -> A -> Prop) (l : list A) (x : A) :
  StronglySorted R l -> Forall (fun y => R y x) l -> StronglySorted R (l ++ [x]).
Proof.
  induction l as [| y l IH]; intros Hs Hall; simpl.
  - repeat constructor.
  - inversion Hs; subst. inversion Hall; subst. constructor.
    + now apply IH.
    + apply Forall_app. split; [assumption | now constructor].
Qed.

Lemma StronglySorted_rev {A} (R : A -> A -> Prop) (l : list A) :
  StronglySorted R l -> StronglySorted (fun x y => R y x) (rev l).
Proof.
  induction l as [| x l IH]; intros H; simpl; [constructor |].
  inversion H; subst. apply StronglySorted_app_rev; [now apply IH |].
  apply Forall_rev. assumption.
Qed.

Lemma NoDup_skipn {A} (n : nat) (l : list A) : NoDup l -> NoDup (skipn n l).
Proof.
  revert l. induction n as [| n IH]; intros l H; [exact H |].
  destruct l as [| x l]; [exact H |]. simpl. apply IH. now inversion H.
Qed.

Lemma In_skipn {A} (n : nat) (l : list A) (x : A) : In x (skipn n l) -> In x l.
Proof.
  revert l. induction n as [| n IH]; intros l H; [exact H |].
  destruct l as [| y l]; [exact H |]. right. now apply IH.
Qed.

Lemma take_rows_ok (rs : list (list cell)) (indices : list nat) :
  (forall i, In i indices -> i < List.length rs) ->
  take_rows rs indices = Ok (map (fun i => nth i rs []) indices).
Proof.
  induction indices as [| i indices IH]; intros H; [reflexivity |].
  cbn [take_rows map]. rewrite IH by (intros k Hk; apply H; now right).
  destruct (nth_error rs i) as [r |] eqn:E.
  - now rewrite (nth_error_nth _ _ _ E).
  - apply nth_error_None in E. specialize (H i (or_introl eq_refl)). lia.
Qed.

Lemma select_all {A} (l : list A) (mask : list bool) :
  List.length mask = List.length l -> forallb (fun b => b) mask = true ->
  select l mask = l.
Proof.
  revert mask. induction l as [| x l IH]; intros [| b mask] Hlen Hall;
    simpl in *; try discriminate; [reflexivity |].
  apply andb_true_iff in Hall. destruct Hall as [-> Hall].
  rewrite IH; [reflexivity | lia | exact Hall].
Qed.

Lemma mask_and_all (a b : list bool) :
  List.length a = List.length b ->
  forallb (fun x => x) a = true -> forallb (fun x => x) b = true ->
  List.length (mask_and a b) = List.length a /\
  forallb (fun x => x) (mask_and a b) = true.
Proof.
  revert b. induction a as [| x a IH]; intros [| y b] Hlen Ha Hb;
    simpl in *; try discriminate; [split; reflexivity |].
  apply andb_true_iff in Ha. destruct Ha as [-> Ha].
  apply andb_true_iff in Hb. destruct Hb as [-> Hb].
  destruct (IH b) as [Hl Hf]; try assumption; [lia |].
  simpl. split; [lia | exact Hf].
Qed.

(** ** The similarity index *)

Section IndexProperties.

Variables Vocab Vec Score : Type.
Variable fit_transform : list pystr -> result (Vocab * list Vec).
Variable transform : Vocab -> pystr -> Vec.
Variable cosine : Vec -> Vec -> Score.
Variable score_leb : Score -> Score -> bool.
Variable argsort : list Score -> list nat.
Variable read_csv : string -> result DataFrame.
Variable parse_numeric : pystr -> option number.
Variable str_of_number : number -> pystr.

Lemma preprocess_data_inv (a0 a : QuranFruitAnalyzer Vocab Vec) (out : list event) :
  preprocess_data fit_transform str_of_number a0 = (out, Ok a) ->
  exists verse_text vocab matrix,
    out = [] /\ df a = df a0 /\
    getitem (df a0) "verse_text" = Ok verse_text /\
    fit_transform (map (astype_str str_of_number) (s_values verse_text)) = Ok (vocab, matrix) /\
    vectorizer a = Some vocab /\ tfidf_matrix a = Some matrix.
Proof.
  unfold preprocess_data. intros H.
  destruct (getitem (df a0) "verse_text") as [vt | e] eqn:Hvt; [| discriminate].
  rewrite bind_lift_ok in H. cbv zeta in H.
  destruct (fit_transform (map (astype_str str_of_number) (s_values vt)))
    as [[vocab matrix] | e] eqn:Hfit; [| discriminate].
  cbn in H. inversion H; subst; clear H.
  exists vt, vocab, matrix. repeat split; trivial.
Qed.

(** A query on an unfitted vectorizer: [transform] raises NotFittedError,
    the handler prints it and returns [pd.DataFrame()]. *)
Lemma find_related_verses_unfitted
  (self : QuranFruitAnalyzer Vocab Vec) (fruit_name : pystr) (top_n : Z) :
  vectorizer self = None ->
  find_related_verses transform cosine argsort self fruit_name top_n =
  ([ErrorSearchingVerses NotFittedError], Ok empty_frame).
Proof.
  intros H. unfold find_related_verses, vectorizer_transform. now rewrite H.
Qed.

(** C1, amended.  On an analyzer whose index has not been built (it comes
    from the constructor and [preprocess_data] has not run), a query
    raises nothing: for every query string and every [top_n] it prints
    the NotFittedError of the vectorizer and returns the empty table. *)
Theorem query_before_build_returns_empty
  (path : string) (out : list event) (a : QuranFruitAnalyzer Vocab Vec)
  (fruit_name : pystr) (top_n : Z) :
  __init__ Vocab Vec read_csv parse_numeric path = (out, Ok a) ->
  find_related_verses transform cosine argsort a fruit_name top_n =
  ([ErrorSearchingVerses NotFittedError], Ok empty_frame).
Proof.
  intros H. apply find_related_verses_unfitted.
  destruct (init_inv _ _ _ _ _ _ _ H) as [raw [i [j [_ [_ [_ [_ [_ [_ [Hv _]]]]]]]]]].
  exact Hv.
Qed.

(** On a built index whose table has no missing verse_text or surah, the
    query prints nothing and returns the rows at [valid_indices]. *)
Lemma find_related_verses_built
  (self : QuranFruitAnalyzer Vocab Vec) (vocab : Vocab) (matrix : list Vec)
  (fruit_name : pystr) (top_n : Z) (i k : nat) :
  vectorizer self = Some vocab -> tfidf_matrix self = Some matrix ->
  col_index "verse_text" (columns (df self)) = Some i ->
  col_index "surah" (columns (df self)) = Some k ->
  (forall row, In row (rows (df self)) ->
               notna (cell_at i row) = true /\ notna (cell_at k row) = true) ->
  (forall idx,
      In idx (valid_indices_of argsort (map (cosine (transform vocab fruit_name)) matrix) top_n) ->
      idx < List.length (rows (df self))) ->
  find_related_verses transform cosine argsort self fruit_name top_n =
  ([], Ok (mkDataFrame (columns (df self))
             (rows_at (df self)
                (valid_indices_of argsort
                   (map (cosine (transform vocab fruit_name)) matrix) top_n)))).
Proof.
  intros Hv Hm Hi Hk Hna Hidx.
  unfold find_related_verses, vectorizer_transform, get_tfidf_matrix.
  rewrite Hv, Hm, !bind_lift_ok. cbv zeta.
  set (indices := valid_indices_of argsort (map (cosine (transform vocab fruit_name)) matrix) top_n) in *.
  unfold iloc. rewrite (take_rows_ok _ _ Hidx), bind_lift_ok.
  fold (rows_at (df self) indices).
  unfold getitem. cbn [columns rows]. rewrite Hi, Hk, !bind_lift_ok.
  cbn [s_values]. unfold boolean_filter. cbn [columns rows try_except ret].
  assert (Hrows : forall row, In row (rows_at (df self) indices) -> In row (rows (df self))).
  { intros row Hin. unfold rows_at in Hin. apply in_map_iff in Hin.
    destruct Hin as [idx [<- Hin]]. apply nth_In. now apply Hidx. }
  assert (Hall : forall c, (forall row, In row (rows (df self)) -> notna (cell_at c row) = true) ->
            forallb (fun b => b) (map notna (map (cell_at c) (rows_at (df self) indices))) = true).
  { intros c Hc. rewrite forallb_forall. intros b Hb.
    apply in_map_iff in Hb. destruct Hb as [x [<- Hx]].
    apply in_map_iff in Hx. destruct Hx as [row [<- Hrow]].
    apply Hc. now apply Hrows. }
  destruct (mask_and_all
              (map notna (map (cell_at i) (rows_at (df self) indices)))
              (map notna (map (cell_at k) (rows_at (df self) indices))))
    as [Hlen Hmask].
  - now rewrite !length_map.
  - apply Hall. intros row Hrow. now apply Hna.
  - apply Hall. intros row Hrow. now apply Hna.
  - rewrite select_all; [reflexivity | | exact Hmask].
    rewrite Hlen. now rewrite !length_map.
Qed.

(** The contract of the libraries the ranking relies on: [fit_transform]
    returns one row per document, [argsort] returns the positions of its
    argument, each once, in ascending order of score, and tables are
    rectangular. *)
Hypothesis fit_transform_length :
  forall texts vocab matrix,
    fit_transform texts = Ok (vocab, matrix) -> List.length matrix = List.length texts.
Hypothesis argsort_perm :
  forall similarity, Permutation (argsort similarity) (seq 0 (List.length similarity)).
Hypothesis argsort_sorted :
  forall similarity, StronglySorted (score_le_at score_leb similarity) (argsort similarity).
Hypothesis read_csv_well_formed :
  forall path raw, read_csv path = Ok raw -> well_formed raw = true.

Lemma valid_indices_in_range (similarity : list Score) (top_n : Z) (idx : nat) :
  In idx (valid_indices_of argsort similarity top_n) -> idx < List.length similarity.
Proof.
  unfold valid_indices_of, slice_from_neg. intros H.
  apply in_rev, In_skipn in H.
  apply (Permutation_in _ (argsort_perm similarity)), in_seq in H. lia.
Qed.

Lemma valid_indices_NoDup (similarity : list Score) (top_n : Z) :
  NoDup (valid_indices_of argsort similarity top_n).
Proof.
  unfold valid_indices_of, slice_from_neg.
  apply NoDup_rev, NoDup_skipn.
  apply (Permutation_NoDup (Permutation_sym (argsort_perm similarity))), seq_NoDup.
Qed.

Lemma valid_indices_length (similarity : list Score) (top_n : Z) :
  (0 < top_n)%Z ->
  List.length (valid_indices_of argsort similarity top_n) =
  Nat.min (Z.to_nat top_n) (List.length similarity).
Proof.
  intros H. unfold valid_indices_of.
  rewrite length_rev, slice_from_neg_length by exact H.
  now rewrite (Permutation_length (argsort_perm similarity)), length_seq.
Qed.

Lemma valid_indices_descending (similarity : list Score) (top_n : Z) :
  StronglySorted (fun i j => score_le_at score_leb similarity j i)
    (valid_indices_of argsort similarity top_n).
Proof.
  unfold valid_indices_of, slice_from_neg.
  apply StronglySorted_rev, StronglySorted_skipn, argsort_sorted.
Qed.

Lemma valid_indices_all (similarity : list Score) (top_n : Z) :
  (0 < top_n)%Z -> (Z.of_nat (List.length similarity) <= top_n)%Z ->
  Permutation (valid_indices_of argsort similarity top_n)
    (seq 0 (List.length similarity)).
Proof.
  intros Hpos Hle. unfold valid_indices_of.
  rewrite slice_from_neg_all.
  - apply Permutation_trans with (argsort similarity);
      [apply Permutation_sym, Permutation_rev | apply argsort_perm].
  - now rewrite (Permutation_length (argsort_perm similarity)), length_seq.
  - exact Hpos.
Qed.

(** What the loader and [preprocess_data] establish. *)
Lemma built_corpus
  (path : string) (out0 out1 : list event) (a0 a : QuranFruitAnalyzer Vocab Vec) (k : nat) :
  __init__ Vocab Vec read_csv parse_numeric path = (out0, Ok a0) ->
  preprocess_data fit_transform str_of_number a0 = (out1, Ok a) ->
  col_index "surah" (columns (df a)) = Some k ->
  exists vocab matrix i,
    vectorizer a = Some vocab /\ tfidf_matrix a = Some matrix /\
    List.length matrix = List.length (rows (df a)) /\
    col_index "verse_text" (columns (df a)) = Some i /\
    (forall row, In row (rows (df a)) ->
                 notna (cell_at i row) = true /\ notna (cell_at k row) = true).
Proof.
  intros Hinit Hpre Hk.
  destruct (preprocess_data_inv _ _ _ Hpre)
    as [vt [vocab [matrix [_ [Hdf [Hvt [Hfit [Hv Hm]]]]]]]].
  destruct (init_inv _ _ _ _ _ _ _ Hinit)
    as [raw [i [j [Hr [_ [Hi [Hj [Hc [Hrows _]]]]]]]]].
  rewrite Hdf in *.
  exists vocab, matrix, i. split; [exact Hv |]. split; [exact Hm |].
  rewrite (col_index_names _ _ _ Hc) in Hk.
  split; [| split].
  - rewrite (fit_transform_length _ _ _ Hfit), length_map.
    unfold getitem in Hvt.
    destruct (col_index "verse_text" (columns (df a0))); [| discriminate].
    inversion Hvt; subst. cbn [s_values]. now rewrite length_map.
  - now rewrite (col_index_names _ _ _ Hc).
  - intros row Hin. rewrite Hrows in Hin. apply in_map_iff in Hin.
    destruct Hin as [row0 [<- Hin0]].
    destruct (loaded_row_cells parse_numeric raw i j row0
                (read_csv_well_formed _ _ Hr) Hi Hj Hin0)
      as [Ht [_ [_ Hother]]].
    split.
    + now rewrite Ht.
    + destruct (col_index_Some _ _ _ Hk) as [Hklt _].
      apply Hother; [| exact Hklt].
      apply (col_index_distinct _ _ _ _ _ Hk Hj). discriminate.
Qed.

Lemma rows_at_seq (d : DataFrame) :
  rows_at d (seq 0 (List.length (rows d))) = rows d.
Proof.
  unfold rows_at. generalize (rows d) as l.
  induction l as [| r l IH]; [reflexivity |].
  cbn [List.length seq map nth]. f_equal.
  rewrite <- seq_shift, map_map. exact IH.
Qed.

Lemma rows_at_In (d : DataFrame) (indices : list nat) :
  (forall idx, In idx indices -> idx < List.length (rows d)) ->
  Forall (fun row => In row (rows d)) (rows_at d indices).
Proof.
  intros H. apply Forall_forall. intros row Hin.
  unfold rows_at in Hin. apply in_map_iff in Hin.
  destruct Hin as [idx [<- Hin]]. apply nth_In. now apply H.
Qed.

(** C6.  On a built corpus with its surah column, for every query and
    every positive [top_n], the query raises nothing and returns at most
    [top_n] records; they are rows of the corpus, taken at distinct
    positions and listed in non-increasing order of similarity score.
    When [top_n] is at least the size of the corpus, every document is
    returned, once. *)
Theorem find_related_verses_top_n
  (path : string) (out0 out1 : list event) (a0 a : QuranFruitAnalyzer Vocab Vec)
  (fruit_name : pystr) (top_n : Z) (k : nat) :
  __init__ Vocab Vec read_csv parse_numeric path = (out0, Ok a0) ->
  preprocess_data fit_transform str_of_number a0 = (out1, Ok a) ->
  col_index "surah" (columns (df a)) = Some k ->
  (0 < top_n)%Z ->
  exists vocab matrix indices,
    vectorizer a = Some vocab /\ tfidf_matrix a = Some matrix /\
    find_related_verses transform cosine argsort a fruit_name top_n =
    ([], Ok (mkDataFrame (columns (df a)) (rows_at (df a) indices))) /\
    (Z.of_nat (List.length (rows_at (df a) indices)) <= top_n)%Z /\
    Forall (fun row => In row (rows (df a))) (rows_at (df a) indices) /\
    NoDup indices /\
    StronglySorted
      (fun i j =>
         score_le_at score_leb (map (cosine (transform vocab fruit_name)) matrix) j i)
      indices /\
    ((Z.of_nat (List.length (rows (df a))) <= top_n)%Z ->
     Permutation indices (seq 0 (List.length (rows (df a)))) /\
     Permutation (rows_at (df a) indices) (rows (df a))).
Proof.
  intros Hinit Hpre Hk Hpos.
  destruct (built_corpus _ _ _ _ _ _ Hinit Hpre Hk)
    as [vocab [matrix [i [Hv [Hm [Hlen [Hi Hna]]]]]]].
  set (similarity := map (cosine (transform vocab fruit_name)) matrix).
  assert (Hsim : List.length similarity = List.length (rows (df a)))
    by (unfold similarity; now rewrite length_map).
  assert (Hrange : forall idx, In idx (valid_indices_of argsort similarity top_n) ->
                               idx < List.length (rows (df a))).
  { intros idx Hin. rewrite <- Hsim. now apply valid_indices_in_range with top_n. }
  exists vocab, matrix, (valid_indices_of argsort similarity top_n).
  split; [exact Hv |]. split; [exact Hm |].
  split; [now apply find_related_verses_built with i k |].
  split.
  { unfold rows_at. rewrite length_map, valid_indices_length by exact Hpos. lia. }
  split; [now apply rows_at_In |].
  split; [apply valid_indices_NoDup |].
  split; [apply valid_indices_descending |].
  intros Hall.
  assert (Hperm : Permutation (valid_indices_of argsort similarity top_n)
                    (seq 0 (List.length (rows (df a))))).
  { rewrite <- Hsim. apply valid_indices_all; [exact Hpos | now rewrite Hsim]. }
  split; [exact Hperm |].
  apply Permutation_trans with (rows_at (df a) (seq 0 (List.length (rows (df a))))).
  - unfold rows_at. now apply Permutation_map.
  - rewrite rows_at_seq. apply Permutation_refl.
Qed.

Lemma StronglySorted_weaken {A} (R R' : A -> A -> Prop) (l : list A) :
  (forall x y, R x y -> R' x y) -> StronglySorted R l -> StronglySorted R' l.
Proof.
  intros Himp. induction 1 as [| x l Hs IH Hall]; constructor; [exact IH |].
  eapply Forall_impl; [| exact Hall]. intros y. apply Himp.
Qed.

Lemma comes_before_rev {A} (l : list A) (x y : A) :
  comes_before l x y -> comes_before (rev l) y x.
Proof.
  intros [l1 [l2 [l3 ->]]]. exists (rev l3), (rev l2), (rev l1).
  rewrite rev_app_distr. cbn [rev]. rewrite rev_app_distr. cbn [rev].
  now rewrite <- !app_assoc.
Qed.

Lemma comes_before_app_l {A} (prefix l : list A) (x y : A) :
  comes_before l x y -> comes_before (prefix ++ l) x y.
Proof.
  intros [l1 [l2 [l3 ->]]]. exists (prefix ++ l1), l2, l3.
  now rewrite <- app_assoc.
Qed.

(** C2, amended.  The records of a query are listed by descending score,
    and the code breaks no tie by corpus order: the result is the end of
    the list [argsort] returns, reversed.  So two documents of equal score
    come out in the reverse of the order [argsort] gives them, whatever
    that order is; the default [argsort] promises none for equal
    scores. *)
Theorem tied_documents_in_reverse_argsort_order
  (path : string) (out0 out1 : list event) (a0 a : QuranFruitAnalyzer Vocab Vec)
  (fruit_name : pystr) (top_n : Z) (k : nat) :
  __init__ Vocab Vec read_csv parse_numeric path = (out0, Ok a0) ->
  preprocess_data fit_transform str_of_number a0 = (out1, Ok a) ->
  col_index "surah" (columns (df a)) = Some k ->
  exists vocab matrix indices,
    vectorizer a = Some vocab /\ tfidf_matrix a = Some matrix /\
    find_related_verses transform cosine argsort a fruit_name top_n =
    ([], Ok (mkDataFrame (columns (df a)) (rows_at (df a) indices))) /\
    StronglySorted
      (fun i j =>
         score_le_at score_leb (map (cosine (transform vocab fruit_name)) matrix) j i)
      indices /\
    (exists dropped,
       argsort (map (cosine (transform vocab fruit_name)) matrix) =
       dropped ++ rev indices) /\
    forall i j,
      score_tied_at score_leb (map (cosine (transform vocab fruit_name)) matrix) i j ->
      comes_before indices i j ->
      comes_before (argsort (map (cosine (transform vocab fruit_name)) matrix)) j i.
Proof.
  intros Hinit Hpre Hk.
  destruct (built_corpus _ _ _ _ _ _ Hinit Hpre Hk)
    as [vocab [matrix [i [Hv [Hm [Hlen [Hi Hna]]]]]]].
  set (similarity := map (cosine (transform vocab fruit_name)) matrix).
  assert (Hsim : List.length similarity = List.length (rows (df a)))
    by (unfold similarity; now rewrite length_map).
  exists vocab, matrix, (valid_indices_of argsort similarity top_n).
  split; [exact Hv |]. split; [exact Hm |].
  split.
  { apply find_related_verses_built with i k; trivial.
    intros idx Hin. rewrite <- Hsim. now apply valid_indices_in_range with top_n. }
  split; [apply valid_indices_descending |].
  unfold valid_indices_of, slice_from_neg.
  set (start := Z.to_nat _).
  assert (Hsplit : argsort similarity =
                   firstn start (argsort similarity) ++
                   rev (rev (skipn start (argsort similarity))))
    by (now rewrite rev_involutive, firstn_skipn).
  split; [now exists (firstn start (argsort similarity)) |].
  intros x y _ Hbefore. fold similarity. rewrite Hsplit.
  apply comes_before_app_l, comes_before_rev, Hbefore.
Qed.

End IndexProperties.

(** ** The executable instance meets the contract *)

Lemma insert_by_score_perm (x : nat * Z) (l : list (nat * Z)) :
  Permutation (insert_by_score x l) (x :: l).
Proof.
  induction l as [| y l IH]; simpl; [apply Permutation_refl |].
  destruct (snd x <=? snd y)%Z; [apply Permutation_refl |].
  apply Permutation_trans with (y :: x :: l); [now constructor | constructor].
Qed.

Lemma insertion_sort_perm (l : list (nat * Z)) :
  Permutation (fold_right insert_by_score [] l) l.
Proof.
  induction l as [| x l IH]; simpl; [constructor |].
  apply Permutation_trans with (x :: fold_right insert_by_score [] l);
    [apply insert_by_score_perm | now constructor].
Qed.

Lemma insert_by_score_sorted (x : nat * Z) (s : list (nat * Z)) :
  StronglySorted score_then_index s ->
  Forall (fun y => fst x < fst y) s ->
  StronglySorted score_then_index (insert_by_score x s).
Proof.
  induction s as [| y s IH]; intros Hs Hx; simpl; [repeat constructor |].
  inversion Hs as [| ? ? Hs' Hy]; subst. inversion Hx as [| ? ? Hxy Hx']; subst.
  destruct (Z.leb_spec (snd x) (snd y)) as [Hle | Hgt].
  - constructor; [exact Hs |]. constructor.
    + unfold score_then_index. lia.
    + rewrite Forall_forall in *. intros z Hz.
      specialize (Hy z Hz). specialize (Hx' z Hz).
      unfold score_then_index in *. lia.
  - constructor; [now apply IH |].
    apply (Permutation_Forall (Permutation_sym (insert_by_score_perm x s))).
    constructor; [unfold score_then_index; lia | exact Hy].
Qed.

Lemma insertion_sort_sorted (l : list (nat * Z)) :
  StronglySorted (fun x y => fst x < fst y) l ->
  StronglySorted score_then_index (fold_right insert_by_score [] l).
Proof.
  induction l as [| x l IH]; intros H; simpl; [constructor |].
  inversion H; subst. apply insert_by_score_sorted; [now apply IH |].
  now apply (Permutation_Forall (Permutation_sym (insertion_sort_perm l))).
Qed.

Lemma combine_seq_sorted (scores : list Z) (start : nat) :
  StronglySorted (fun x y : nat * Z => fst x < fst y)
    (combine (seq start (List.length scores)) scores).
Proof.
  revert start. induction scores as [| s scores IH]; intros start; simpl; [constructor |].
  constructor; [apply IH |].
  apply Forall_forall. intros [i z] Hin. apply in_combine_l, in_seq in Hin.
  simpl. lia.
Qed.

Lemma combine_seq_nth (scores : list Z) (start i : nat) (z : Z) :
  In (i, z) (combine (seq start (List.length scores)) scores) ->
  start <= i /\ nth_error scores (i - start) = Some z.
Proof.
  revert start. induction scores as [| s scores IH]; intros start H; simpl in H;
    [contradiction |].
  destruct H as [H | H].
  - inversion H; subst. rewrite Nat.sub_diag. now split.
  - destruct (IH _ H) as [Hle Hnth]. split; [lia |].
    replace (i - start) with (S (i - S start)) by lia. exact Hnth.
Qed.

Lemma map_fst_combine_seq (scores : list Z) (start : nat) :
  map fst (combine (seq start (List.length scores)) scores) =
  seq start (List.length scores).
Proof.
  revert start. induction scores as [| s scores IH]; intros start; simpl;
    [reflexivity | now rewrite IH].
Qed.

Lemma StronglySorted_weaken_In {A} (R R' : A -> A -> Prop) (l : list A) :
  (forall x y, In x l -> In y l -> R x y -> R' x y) ->
  StronglySorted R l -> StronglySorted R' l.
Proof.
  induction l as [| x l IH]; intros Himp H; [constructor |].
  inversion H as [| ? ? Hs Hall]; subst. constructor.
  - apply IH; [| exact Hs]. intros a b Ha Hb. apply Himp; now right.
  - rewrite Forall_forall in *. intros y Hy.
    apply Himp; [now left | now right | now apply Hall].
Qed.

Lemma StronglySorted_map {A B} (f : A -> B) (R : B -> B -> Prop) (l : list A) :
  StronglySorted (fun x y => R (f x) (f y)) l -> StronglySorted R (map f l).
Proof.
  induction 1 as [| x l Hs IH Hall]; simpl; constructor; [exact IH |].
  apply Forall_map. exact Hall.
Qed.

Lemma stable_argsort_perm (scores : list Z) :
  Permutation (stable_argsort scores) (seq 0 (List.length scores)).
Proof.
  unfold stable_argsort.
  apply Permutation_trans
    with (map fst (combine (seq 0 (List.length scores)) scores)).
  - apply Permutation_map, insertion_sort_perm.
  - rewrite map_fst_combine_seq. apply Permutation_refl.
Qed.

(** The sorted pairs, related to the array they come from. *)
Lemma stable_argsort_pairs (scores : list Z) (R : nat -> nat -> Prop) :
  (forall i j x y,
      nth_error scores i = Some x -> nth_error scores j = Some y ->
      score_then_index (i, x) (j, y) -> R i j) ->
  StronglySorted R (stable_argsort scores).
Proof.
  intros HR. unfold stable_argsort. apply StronglySorted_map.
  apply StronglySorted_weaken_In with (R := score_then_index).
  - intros [i x] [j y] Hx Hy Hxy.
    apply (Permutation_in _ (insertion_sort_perm _)) in Hx, Hy.
    apply combine_seq_nth in Hx, Hy. rewrite Nat.sub_0_r in Hx, Hy.
    apply (HR i j x y); tauto.
  - apply insertion_sort_sorted, combine_seq_sorted.
Qed.

Lemma stable_argsort_sorted (scores : list Z) :
  StronglySorted (score_le_at Z.leb scores) (stable_argsort scores).
Proof.
  apply stable_argsort_pairs. intros i j x y Hi Hj Hxy.
  unfold score_le_at. rewrite Hi, Hj. apply Z.leb_le.
  unfold score_then_index in Hxy. simpl in Hxy. lia.
Qed.

Lemma demo_fit_transform_length (texts : list pystr) (vocab : unit) (matrix : list pystr) :
  demo_fit_transform texts = Ok (vocab, matrix) -> List.length matrix = List.length texts.
Proof.
  destruct texts; simpl; intros H; [discriminate | now inversion H].
Qed.

Lemma demo_read_csv_well_formed (path : string) (raw : DataFrame) :
  demo_read_csv path = Ok raw -> well_formed raw = true.
Proof.
  unfold demo_read_csv.
  repeat match goal with
         | |- context [String.eqb path ?s] => destruct (String.eqb path s)
         end;
    intros H; inversion H; subst; reflexivity.
Qed.

(** ** The properties on the sample files *)

(** C1 amended, on the analyzer of quran_verses.csv before it is built. *)
Lemma query_before_build_returns_empty_witness :
  exists a,
    demo_init "quran_verses.csv" = ([], Ok a) /\
    find_related_verses demo_transform demo_cosine stable_argsort a palm_query 5 =
    ([ErrorSearchingVerses NotFittedError], Ok empty_frame).
Proof.
  eexists. split; [vm_compute; reflexivity |].
  apply (query_before_build_returns_empty unit pystr Z demo_transform demo_cosine
           stable_argsort demo_read_csv parse_decimal "quran_verses.csv" []).
  vm_compute. reflexivity.
Defined.

(** C1 fails: a query on the unbuilt analyzer of quran_verses.csv does not
    raise NotBuiltError, nor anything else; it returns the empty table. *)
Lemma query_before_build_does_not_raise :
  exists a,
    demo_init "quran_verses.csv" = ([], Ok a) /\
    vectorizer a = None /\ tfidf_matrix a = None /\
    snd (find_related_verses demo_transform demo_cosine stable_argsort a palm_query 5) =
    Ok empty_frame /\
    ~ (exists e,
         snd (find_related_verses demo_transform demo_cosine stable_argsort a palm_query 5) =
         Raise e /\ exn_class e = "NotBuiltError"%string).
Proof.
  eexists. split; [vm_compute; reflexivity |].
  split; [reflexivity |]. split; [reflexivity |]. split; [reflexivity |].
  intros [e [H _]]. vm_compute in H. discriminate.
Qed.

(** C2 amended, on quran_verses.csv and the query [نخل], which the second
    and the third document contain. *)
Lemma tied_documents_in_reverse_argsort_order_witness :
  exists a0 a,
    demo_init "quran_verses.csv" = ([], Ok a0) /\
    preprocess_data demo_fit_transform demo_str_of_number a0 = ([], Ok a) /\
    exists vocab matrix indices,
      vectorizer a = Some vocab /\ tfidf_matrix a = Some matrix /\
      find_related_verses demo_transform demo_cosine stable_argsort a palm_query 5 =
      ([], Ok (mkDataFrame (columns (df a)) (rows_at (df a) indices))) /\
      StronglySorted
        (fun i j =>
           score_le_at Z.leb (map (demo_cosine (demo_transform vocab palm_query)) matrix) j i)
        indices /\
      (exists dropped,
         stable_argsort (map (demo_cosine (demo_transform vocab palm_query)) matrix) =
         dropped ++ rev indices) /\
      forall i j,
        score_tied_at Z.leb (map (demo_cosine (demo_transform vocab palm_query)) matrix) i j ->
        comes_before indices i j ->
        comes_before
          (stable_argsort (map (demo_cosine (demo_transform vocab palm_query)) matrix)) j i.
Proof.
  eexists. eexists. split; [vm_compute; reflexivity |].
  split; [vm_compute; reflexivity |].
  eapply (tied_documents_in_reverse_argsort_order unit pystr Z
           demo_fit_transform demo_transform demo_cosine Z.leb stable_argsort
           demo_read_csv parse_decimal demo_str_of_number
           demo_fit_transform_length stable_argsort_perm stable_argsort_sorted
           demo_read_csv_well_formed
           "quran_verses.csv" [] [] _ _ palm_query 5 0).
  - vm_compute. reflexivity.
  - vm_compute. reflexivity.
  - reflexivity.
Defined.

(** C2 fails: for a query word that no document contains every score is 0,
    and the three documents of quran_verses.csv come back in the order 2,
    1, 0, the reverse of their corpus order 0, 1, 2. *)
Lemma tied_documents_not_in_corpus_order :
  exists a,
    demo_built "quran_verses.csv" = ([], Ok a) /\
    List.length (rows (df a)) = 3 /\
    (exists vocab matrix,
       vectorizer a = Some vocab /\ tfidf_matrix a = Some matrix /\
       map (demo_cosine (demo_transform vocab (ascii_str "apple"))) matrix =
       [0; 0; 0]%Z) /\
    find_related_verses demo_transform demo_cosine stable_argsort a (ascii_str "apple") 5 =
    ([], Ok (mkDataFrame (columns (df a)) (rows_at (df a) [2; 1; 0]))) /\
    rows_at (df a) [2; 1; 0] <> rows_at (df a) [0; 1; 2].
Proof.
  eexists. split; [vm_compute; reflexivity |].
  split; [reflexivity |].
  split; [eexists; eexists; split; [reflexivity | split; reflexivity] |].
  split; [vm_compute; reflexivity |].
  vm_compute. discriminate.
Qed.

(** C3 amended, on quran_verses.csv: four raw rows, three records. *)
Lemma loader_records_witness :
  exists a raw,
    demo_init "quran_verses.csv" = ([], Ok a) /\
    demo_read_csv "quran_verses.csv" = Ok raw /\
    List.length (rows (df a)) <= List.length (rows raw) /\
    forall row, In row (rows (df a)) ->
      (forall surah, row_field (columns (df a)) row "surah" = Ok surah ->
                     notna surah = true) /\
      (exists text, row_field (columns (df a)) row "verse_text" = Ok (Str text)) /\
      (exists raw_number,
         notna raw_number = true /\
         row_field (columns (df a)) row "verse_number" =
         Ok (to_numeric_cell parse_decimal raw_number)).
Proof.
  eexists.
  assert (H : demo_init "quran_verses.csv" = ([], Ok _)) by (vm_compute; reflexivity).
  destruct (loader_records unit pystr demo_read_csv parse_decimal
              demo_read_csv_well_formed "quran_verses.csv" [] _ H)
    as [raw [Hraw Hrest]].
  exists raw. split; [exact H |]. split; [exact Hraw | exact Hrest].
Defined.

(** C3 fails for the verse_number: the only row of bad_number.csv has the
    verse_number [abc]; it is present, the row is kept, and after the
    conversion the record has a missing verse_number. *)
Lemma loader_yields_missing_verse_number :
  exists a row,
    demo_init "bad_number.csv" = ([], Ok a) /\
    In row (rows (df a)) /\
    row_field (columns (df a)) row "verse_number" = Ok NaN /\
    notna NaN = false.
Proof.
  eexists. eexists. split; [vm_compute; reflexivity |].
  split; [left; reflexivity |].
  split; reflexivity.
Qed.

(** C6, on quran_verses.csv with the query [نخل] and [top_n] 5. *)
Lemma find_related_verses_top_n_witness :
  exists a0 a,
    demo_init "quran_verses.csv" = ([], Ok a0) /\
    preprocess_data demo_fit_transform demo_str_of_number a0 = ([], Ok a) /\
    exists vocab matrix indices,
      vectorizer a = Some vocab /\ tfidf_matrix a = Some matrix /\
      find_related_verses demo_transform demo_cosine stable_argsort a palm_query 5 =
      ([], Ok (mkDataFrame (columns (df a)) (rows_at (df a) indices))) /\
      (Z.of_nat (List.length (rows_at (df a) indices)) <= 5)%Z /\
      Forall (fun row => In row (rows (df a))) (rows_at (df a) indices) /\
      NoDup indices /\
      StronglySorted
        (fun i j =>
           score_le_at Z.leb (map (demo_cosine (demo_transform vocab palm_query)) matrix) j i)
        indices /\
      ((Z.of_nat (List.length (rows (df a))) <= 5)%Z ->
       Permutation indices (seq 0 (List.length (rows (df a)))) /\
       Permutation (rows_at (df a) indices) (rows (df a))).
Proof.
  eexists. eexists. split; [vm_compute; reflexivity |].
  split; [vm_compute; reflexivity |].
  eapply (find_related_verses_top_n unit pystr Z
           demo_fit_transform demo_transform demo_cosine Z.leb stable_argsort
           demo_read_csv parse_decimal demo_str_of_number
           demo_fit_transform_length stable_argsort_perm stable_argsort_sorted
           demo_read_csv_well_formed
           "quran_verses.csv" [] [] _ _ palm_query 5 0).
  - vm_compute. reflexivity.
  - vm_compute. reflexivity.
  - reflexivity.
  - reflexivity.
Defined.

(** C8 amended, in a directory without quran_verses.csv. *)
Lemma loader_failure_is_fatal_witness :
  __init__ unit pystr no_files parse_decimal "quran_verses.csv" =
  ([ErrorReadingFile FileNotFoundError], Raise FileNotFoundError) /\
  ("quran_verses.csv"%string = "quran_verses.csv"%string ->
   forall (Score : Type) (fit_transform : list pystr -> result (unit * list pystr))
          (transform : unit -> pystr -> pystr) (cosine : pystr -> pystr -> Score)
          (argsort : list Score -> list nat) (str_of_number : number -> pystr)
          (inputs : list pystr),
     main fit_transform transform cosine argsort no_files parse_decimal
       str_of_number inputs =
     ([ErrorReadingFile FileNotFoundError; GeneralProgramError FileNotFoundError], Ok tt)).
Proof.
  apply (loader_failure_is_fatal unit pystr no_files parse_decimal
           "quran_verses.csv" FileNotFoundError).
  left. reflexivity.
Defined.

(** C8 fails: for a missing file the loader raises the FileNotFoundError of
    [read_csv] itself, and no CorpusLoadError. *)
Lemma loader_raises_underlying_exception :
  demo_read_csv "missing.csv" = Raise FileNotFoundError /\
  demo_init "missing.csv" =
  ([ErrorReadingFile FileNotFoundError], Raise FileNotFoundError) /\
  exn_class FileNotFoundError <> "CorpusLoadError"%string.
Proof.
  split; [reflexivity |]. split; [reflexivity |]. discriminate.
Qed.

(** ** Runs of the program on the sample files *)

(** The single verse [والتين والزيتون]: the fig and the olive are counted
    once per matching variant, the other categories are 0. *)
Example fig_and_olive_counts :
  analyze_fruits_frequency
    (mkAnalyzer (mkDataFrame verse_columns [[Num (Int 95); Num (Int 1); Str fig_olive_text]])
       (@None unit) (@None (list pystr))) =
  ([], Ok [(PALM, 0); (GRAPE, 0); (POMEGRANATE, 0); (OLIVE, 3); (FIG, 3)]).
Proof. vm_compute. reflexivity. Qed.

(** The row of quran_verses.csv without a surah is dropped. *)
Example incomplete_row_dropped :
  exists a,
    demo_init "quran_verses.csv" = ([], Ok a) /\ List.length (rows (df a)) = 3.
Proof. eexists. split; [vm_compute; reflexivity | reflexivity]. Qed.

(** A session: an invalid option, then the option 3. *)
Example session_invalid_then_exit :
  main demo_fit_transform demo_transform demo_cosine stable_argsort
    demo_read_csv parse_decimal demo_str_of_number [ascii_str "9"; ascii_str "3"] =
  ([Menu; PromptOption; InvalidOption; Menu; PromptOption; ProgramEnded], Ok tt).
Proof. vm_compute. reflexivity. Qed.

(** A session whose input ends: [input] raises EOFError and [main] reports
    it. *)
Example session_end_of_input :
  main demo_fit_transform demo_transform demo_cosine stable_argsort
    demo_read_csv parse_decimal demo_str_of_number [] =
  ([Menu; PromptOption; GeneralProgramError EOFError], Ok tt).
Proof. vm_compute. reflexivity. Qed.

(** An empty corpus cannot be indexed: [fit_transform] finds no vocabulary
    and [main] ends before the menu. *)
Example session_empty_corpus :
  main demo_fit_transform demo_transform demo_cosine stable_argsort
    (fun _ => demo_read_csv "blank_text.csv") parse_decimal demo_str_of_number
    [ascii_str "2"] =
  ([ErrorProcessingData ValueError; GeneralProgramError ValueError], Ok tt).
Proof. vm_compute. reflexivity. Qed.

(** * Further properties of the program *)

(** ** The normalizer, character by character *)

Lemma normalize_char_fixed (c : codepoint) :
  normalizer_changes c = false -> normalize_char c = c.
Proof.
  rewrite normalizer_changes_spec. intros H.
  apply orb_false_iff in H. destruct H as [_ H].
  apply negb_false_iff in H. now apply N.eqb_eq.
Qed.

Lemma normalize_arabic_fixed (s : pystr) :
  forallb (fun c => negb (normalizer_changes c)) s = true ->
  _normalize_arabic (Str s) = s.
Proof.
  rewrite normalize_arabic_chars.
  induction s as [| c s IH]; [reflexivity |].
  cbn [forallb]. intros H. apply andb_true_iff in H. destruct H as [Hc Hs].
  apply negb_true_iff in Hc.
  assert (Hd : is_diacritic c = false).
  { rewrite normalizer_changes_spec in Hc. now apply orb_false_iff in Hc. }
  cbn [filter]. rewrite Hd. cbn [negb map].
  now rewrite (normalize_char_fixed c Hc), IH.
Qed.

Lemma normalize_arabic_output_clean (x : cell) :
  forallb (fun c => negb (normalizer_changes c)) (_normalize_arabic x) = true.
Proof.
  apply forallb_forall. intros c Hin.
  now rewrite (normalize_arabic_unchanged_chars x c Hin).
Qed.

(** X1. The normalizer works character by character: the normal form of a
    concatenation is the concatenation of the normal forms. *)
Theorem normalize_arabic_app (s t : pystr) :
  _normalize_arabic (Str (s ++ t)) =
  _normalize_arabic (Str s) ++ _normalize_arabic (Str t).
Proof.
  rewrite !normalize_arabic_chars, filter_app, map_app. reflexivity.
Qed.

(** X2. Normalization preserves occurrences: when a pattern occurs in a
    text, the normalized pattern occurs in the normalized text. *)
Theorem normalize_arabic_preserves_contains (pat s : pystr) :
  contains pat s = true ->
  contains (_normalize_arabic (Str pat)) (_normalize_arabic (Str s)) = true.
Proof.
  intros H. apply contains_iff in H. destruct H as [pre [post ->]].
  apply contains_iff.
  exists (_normalize_arabic (Str pre)), (_normalize_arabic (Str post)).
  rewrite !normalize_arabic_chars, !filter_app, !map_app. reflexivity.
Qed.

(** X2 at the variant [أعناب] inside [من أعنابٍ]. *)
Lemma normalize_arabic_preserves_contains_witness :
  contains (_normalize_arabic (Str [0x0623; 0x0639; 0x0646; 0x0627; 0x0628]%N))
    (_normalize_arabic
       (Str [0x0645; 0x0646; 0x0020; 0x0623; 0x0639; 0x0646; 0x0627; 0x0628; 0x064D]%N)) = true.
Proof.
  apply normalize_arabic_preserves_contains. reflexivity.
Defined.

(** X3. The strings the normalizer leaves unchanged are exactly those
    without a diacritic of its range, a hamza or madda alef, an alef
    maksura or a teh marbuta. *)
Theorem normalize_arabic_fixed_iff (s : pystr) :
  _normalize_arabic (Str s) = s <->
  forallb (fun c => negb (normalizer_changes c)) s = true.
Proof.
  split.
  - intros H. rewrite <- H. apply normalize_arabic_output_clean.
  - apply normalize_arabic_fixed.
Qed.

(** X4. The normalizer removes the diacritics and nothing else: the length
    of the result is the length of the text less its diacritics. *)
Theorem normalize_arabic_length (s : pystr) :
  List.length (_normalize_arabic (Str s)) + List.length (filter is_diacritic s) =
  List.length s.
Proof.
  rewrite normalize_arabic_chars, length_map.
  induction s as [| c s IH]; [reflexivity |].
  cbn [filter]. destruct (is_diacritic c); cbn [negb List.length]; lia.
Qed.

(** ** The loader, in detail *)

Lemma setitem_columns (d : DataFrame) (name : string) (s : Series) (i : nat) :
  col_index name (columns d) = Some i ->
  columns (setitem d name s) = set_nth i (name, s_dtype s) (columns d).
Proof.
  intros H. unfold setitem. now rewrite H.
Qed.

Lemma getitem_Some (d : DataFrame) (name : string) (i : nat) :
  col_index name (columns d) = Some i ->
  getitem d name =
  Ok (mkSeries (snd (nth i (columns d) (name, DObject))) (map (cell_at i) (rows d))).
Proof.
  intros H. unfold getitem. now rewrite H.
Qed.

Section LoaderDetails.

Variables Vocab Vec : Type.
Variable read_csv : string -> result DataFrame.
Variable parse_numeric : pystr -> option number.

(** The columns of the loaded table: those of the file, where verse_number
    is numeric and verse_text holds strings, unless no row is left, in
    which case verse_text keeps the dtype it was read with. *)
Lemma init_columns (path : string) (out : list event) (a : QuranFruitAnalyzer Vocab Vec) :
  __init__ Vocab Vec read_csv parse_numeric path = (out, Ok a) ->
  exists raw i j,
    read_csv path = Ok raw /\
    col_index "verse_text" (columns raw) = Some i /\
    col_index "verse_number" (columns raw) = Some j /\
    rows (df a) = map (loaded_row parse_numeric i j) (filter (forallb notna) (rows raw)) /\
    columns (df a) =
    set_nth j ("verse_number"%string, DNumeric)
      (set_nth i
         ("verse_text"%string,
          match rows (df a) with
          | [] => snd (nth i (columns raw) ("verse_text"%string, DObject))
          | _ :: _ => DObject
          end)
         (columns raw)).
Proof.
  intros H.
  destruct (init_inv _ _ _ _ _ _ _ H) as [raw [i [j [Hr [_ [Hi [Hj [_ [Hrows _]]]]]]]]].
  exists raw, i, j. repeat split; trivial.
  unfold __init__ in H. rewrite Hr, bind_lift_ok in H. cbv zeta in H.
  rewrite (getitem_Some (dropna raw) "verse_text" i Hi), bind_lift_ok in H.
  set (vt := mkSeries _ (map (cell_at i) (rows (dropna raw)))) in H.
  assert (Hc2 : columns (setitem (dropna raw) "verse_text" (apply_str _normalize_arabic vt)) =
                set_nth i ("verse_text"%string, s_dtype (apply_str _normalize_arabic vt))
                  (columns raw))
    by (exact (setitem_columns (dropna raw) "verse_text" _ i Hi)).
  assert (Hj2 : col_index "verse_number"
                  (columns (setitem (dropna raw) "verse_text" (apply_str _normalize_arabic vt))) =
                Some j).
  { rewrite <- Hj. apply col_index_names. rewrite Hc2. now apply map_fst_set_nth. }
  rewrite (getitem_Some _ "verse_number" j Hj2), bind_lift_ok in H.
  cbn [try_except ret] in H. inversion H; subst; clear H.
  cbn [df] in *. rewrite Hrows, (setitem_columns _ _ _ _ Hj2), Hc2.
  unfold vt. cbn [to_numeric s_dtype apply_str s_values dropna rows columns].
  destruct (filter (forallb notna) (rows raw)); reflexivity.
Qed.

Lemma init_verse_text_series
  (path : string) (out : list event) (a : QuranFruitAnalyzer Vocab Vec) :
  __init__ Vocab Vec read_csv parse_numeric path = (out, Ok a) ->
  exists raw i,
    read_csv path = Ok raw /\
    col_index "verse_text" (columns raw) = Some i /\
    col_index "verse_text" (columns (df a)) = Some i /\
    getitem (df a) "verse_text" =
    Ok (mkSeries
          match rows (df a) with
          | [] => snd (nth i (columns raw) ("verse_text"%string, DObject))
          | _ :: _ => DObject
          end
          (map (cell_at i) (rows (df a)))).
Proof.
  intros H.
  destruct (init_columns _ _ _ H) as [raw [i [j [Hr [Hi [Hj [Hrows Hcols]]]]]]].
  destruct (col_index_Some _ _ _ Hi) as [Hilt _].
  assert (Hij : i <> j)
    by (apply (col_index_distinct _ _ _ _ _ Hi Hj); discriminate).
  assert (Hi' : col_index "verse_text" (columns (df a)) = Some i).
  { rewrite <- Hi. apply col_index_names. rewrite Hcols.
    rewrite map_fst_set_nth.
    - now apply map_fst_set_nth.
    - rewrite <- Hj. apply col_index_names. now apply map_fst_set_nth. }
  exists raw, i. repeat split; trivial.
  rewrite (getitem_Some _ _ _ Hi'). do 2 f_equal.
  rewrite Hcols, nth_set_nth_neq by auto.
  now rewrite nth_set_nth_eq by exact Hilt.
Qed.

(** X5. The loader keeps the complete rows of the file in their order: the
    corpus has one record per raw row without a missing cell, and apart
    from verse_text and verse_number every cell of a record is the cell of
    the raw row. *)
Theorem loader_keeps_complete_rows
  (path : string) (out : list event) (a : QuranFruitAnalyzer Vocab Vec) :
  __init__ Vocab Vec read_csv parse_numeric path = (out, Ok a) ->
  exists raw i j,
    read_csv path = Ok raw /\
    col_index "verse_text" (columns raw) = Some i /\
    col_index "verse_number" (columns raw) = Some j /\
    map fst (columns (df a)) = map fst (columns raw) /\
    Forall2
      (fun record raw_row =>
         List.length record = List.length raw_row /\
         forall k, k <> i -> k <> j -> cell_at k record = cell_at k raw_row)
      (rows (df a)) (filter (forallb notna) (rows raw)).
Proof.
  intros H.
  destruct (init_inv _ _ _ _ _ _ _ H) as [raw [i [j [Hr [_ [Hi [Hj [Hc [Hrows _]]]]]]]]].
  exists raw, i, j. repeat split; trivial.
  rewrite Hrows. generalize (filter (forallb notna) (rows raw)) as l.
  induction l as [| r l IH]; [constructor |].
  cbn [map]. constructor; [| exact IH].
  unfold loaded_row, cell_at. cbv zeta. split.
  - now rewrite !set_nth_length.
  - intros k Hki Hkj. now rewrite !nth_set_nth_neq by auto.
Qed.

(** X6. The loader fails exactly when the file does: the constructor
    raises [e] if and only if [read_csv] raises [e] or the table lacks the
    verse_text or verse_number column ([e] is then the KeyError), and the
    only line it prints is the error. *)
Theorem loader_fails_iff (path : string) (out : list event) (e : exn) :
  __init__ Vocab Vec read_csv parse_numeric path = (out, Raise e) <->
  out = [ErrorReadingFile e] /\ load_failure read_csv path e.
Proof.
  split.
  - intros H. pose proof (init_failure_inv _ _ _ _ _ _ _ H) as Hf.
    split; [| exact Hf].
    rewrite (init_failure Vocab Vec _ parse_numeric _ _ Hf) in H. now inversion H.
  - intros [-> Hf]. now apply init_failure.
Qed.

(** Tables are rectangular. *)
Hypothesis read_csv_well_formed :
  forall path raw, read_csv path = Ok raw -> well_formed raw = true.

(** X7. Every verse_text of the loaded corpus is in normal form: it is a
    string that the normalizer leaves unchanged, free of the characters the
    normalizer deletes or rewrites. *)
Theorem loader_texts_normalized
  (path : string) (out : list event) (a : QuranFruitAnalyzer Vocab Vec) :
  __init__ Vocab Vec read_csv parse_numeric path = (out, Ok a) ->
  forall row, In row (rows (df a)) ->
    exists text,
      row_field (columns (df a)) row "verse_text" = Ok (Str text) /\
      _normalize_arabic (Str text) = text /\
      forallb (fun c => negb (normalizer_changes c)) text = true.
Proof.
  intros H row Hin.
  destruct (init_inv _ _ _ _ _ _ _ H) as [raw [i [j [Hr [_ [Hi [Hj [Hc [Hrows _]]]]]]]]].
  rewrite Hrows in Hin. apply in_map_iff in Hin. destruct Hin as [row0 [<- Hin0]].
  destruct (loaded_row_cells parse_numeric raw i j row0
              (read_csv_well_formed _ _ Hr) Hi Hj Hin0) as [Ht _].
  exists (_normalize_arabic (cell_at i row0)).
  unfold row_field. rewrite (col_index_names _ _ _ Hc), Hi, Ht.
  split; [reflexivity |].
  split; [| apply normalize_arabic_output_clean].
  apply normalize_arabic_fixed, normalize_arabic_output_clean.
Qed.

End LoaderDetails.

(** ** The index and the query, in detail *)

Lemma Forall2_map_r_In {A B} (R : A -> B -> Prop) (f : A -> B) (l : list A) :
  (forall x, In x l -> R x (f x)) -> Forall2 R l (map f l).
Proof.
  induction l as [| x l IH]; intros H; [constructor |].
  cbn [map]. constructor; [apply H; now left |].
  apply IH. intros y Hy. apply H. now right.
Qed.

Lemma StronglySorted_app_inv {A} (R : A -> A -> Prop) (l1 l2 : list A) (x y : A) :
  StronglySorted R (l1 ++ l2) -> In x l1 -> In y l2 -> R x y.
Proof.
  induction l1 as [| z l1 IH]; intros Hs Hx Hy; [contradiction |].
  cbn [app] in Hs. inversion Hs as [| ? ? Hs' Hall]; subst.
  destruct Hx as [-> | Hx].
  - rewrite Forall_forall in Hall. apply Hall, in_or_app. now right.
  - now apply IH.
Qed.

Lemma slice_from_neg_nonpositive {A} (k : Z) (l : list A) :
  (k <= 0)%Z ->
  slice_from_neg k l = skipn (Nat.min (Z.to_nat (- k)) (List.length l)) l.
Proof.
  intros Hk. unfold slice_from_neg.
  destruct (Z.ltb_spec (- k) 0) as [H | _]; [lia |].
  f_equal. lia.
Qed.

Section IndexDetails.

Variables Vocab Vec Score : Type.
Variable fit_transform : list pystr -> result (Vocab * list Vec).
Variable transform : Vocab -> pystr -> Vec.
Variable cosine : Vec -> Vec -> Score.
Variable score_leb : Score -> Score -> bool.
Variable argsort : list Score -> list nat.
Variable read_csv : string -> result DataFrame.
Variable parse_numeric : pystr -> option number.
Variable str_of_number : number -> pystr.

(** X8. A query never raises, whatever the state of the analyzer, the
    query and [top_n]: either it prints nothing and returns a table, or it
    prints one error line and returns the empty table. *)
Theorem find_related_verses_never_raises
  (self : QuranFruitAnalyzer Vocab Vec) (fruit_name : pystr) (top_n : Z) :
  exists out results,
    find_related_verses transform cosine argsort self fruit_name top_n = (out, Ok results) /\
    (out = [] \/ exists e, out = [ErrorSearchingVerses e] /\ results = empty_frame).
Proof.
  unfold find_related_verses.
  destruct (vectorizer_transform transform self fruit_name) as [query_vec | e];
    [rewrite bind_lift_ok | eexists; eexists; split; [reflexivity | right; now exists e]].
  destruct (get_tfidf_matrix self) as [matrix | e];
    [rewrite bind_lift_ok | eexists; eexists; split; [reflexivity | right; now exists e]].
  cbv zeta.
  destruct (iloc (df self) _) as [results | e];
    [rewrite bind_lift_ok | eexists; eexists; split; [reflexivity | right; now exists e]].
  destruct (getitem results "verse_text") as [verse_text | e];
    [rewrite bind_lift_ok | eexists; eexists; split; [reflexivity | right; now exists e]].
  destruct (getitem results "surah") as [surah | e];
    [rewrite bind_lift_ok | eexists; eexists; split; [reflexivity | right; now exists e]].
  eexists; eexists; split; [reflexivity | now left].
Qed.

(** X9. When building the index fails, [preprocess_data] prints the error
    and raises it again, and [main] stops there: it prints the two error
    lines and never shows the menu, whatever the user would type. *)
Theorem preprocess_failure_is_fatal
  (out0 out1 : list event) (a0 : QuranFruitAnalyzer Vocab Vec) (e : exn) :
  __init__ Vocab Vec read_csv parse_numeric "quran_verses.csv" = (out0, Ok a0) ->
  preprocess_data fit_transform str_of_number a0 = (out1, Raise e) ->
  out1 = [ErrorProcessingData e] /\
  forall inputs,
    main fit_transform transform cosine argsort read_csv parse_numeric str_of_number inputs =
    ([ErrorProcessingData e; GeneralProgramError e], Ok tt).
Proof.
  intros Hinit Hpre.
  assert (Hout1 : out1 = [ErrorProcessingData e]).
  { unfold preprocess_data in Hpre.
    destruct (getitem (df a0) "verse_text") as [vt | e1].
    - rewrite bind_lift_ok in Hpre. cbv zeta in Hpre.
      destruct (fit_transform _) as [fitted | e2]; cbn in Hpre; now inversion Hpre.
    - cbn in Hpre. now inversion Hpre. }
  split; [exact Hout1 |].
  intros inputs. unfold main.
  destruct (init_inv _ _ _ _ _ _ _ Hinit) as [_ [_ [_ [_ [-> _]]]]].
  rewrite Hinit. change (@nil event, Ok a0) with (ret a0).
  rewrite bind_ret_l, Hpre, Hout1. reflexivity.
Qed.

(** The contract of the libraries, as for the ranking. *)
Hypothesis fit_transform_length :
  forall texts vocab matrix,
    fit_transform texts = Ok (vocab, matrix) -> List.length matrix = List.length texts.
Hypothesis argsort_perm :
  forall similarity, Permutation (argsort similarity) (seq 0 (List.length similarity)).
Hypothesis argsort_sorted :
  forall similarity, StronglySorted (score_le_at score_leb similarity) (argsort similarity).
Hypothesis read_csv_well_formed :
  forall path raw, read_csv path = Ok raw -> well_formed raw = true.

(** X10. The index is built from the normalized texts: [preprocess_data]
    leaves the table as it is, fits the vectorizer on the verse_text of the
    records, in corpus order and unchanged by [astype(str)], and stores a
    matrix with one row per record. *)
Theorem preprocess_data_indexes_the_corpus
  (path : string) (out0 out1 : list event) (a0 a : QuranFruitAnalyzer Vocab Vec) :
  __init__ Vocab Vec read_csv parse_numeric path = (out0, Ok a0) ->
  preprocess_data fit_transform str_of_number a0 = (out1, Ok a) ->
  out1 = [] /\ df a = df a0 /\
  exists vocab matrix texts,
    fit_transform texts = Ok (vocab, matrix) /\
    vectorizer a = Some vocab /\ tfidf_matrix a = Some matrix /\
    List.length matrix = List.length (rows (df a)) /\
    Forall2
      (fun record text => row_field (columns (df a)) record "verse_text" = Ok (Str text))
      (rows (df a)) texts.
Proof.
  intros Hinit Hpre.
  destruct (preprocess_data_inv _ _ _ _ _ _ _ Hpre)
    as [vt [vocab [matrix [Hout [Hdf [Hvt [Hfit [Hv Hm]]]]]]]].
  destruct (init_verse_text_series _ _ _ _ _ _ _ Hinit) as [raw0 [i0 [_ [_ [Hi' Hser]]]]].
  destruct (init_inv _ _ _ _ _ _ _ Hinit) as [raw [i [j [Hr [_ [Hi [Hj [Hc [Hrows _]]]]]]]]].
  assert (i0 = i) as ->.
  { rewrite (col_index_names _ _ _ Hc) in Hi'. congruence. }
  rewrite Hser in Hvt. inversion Hvt; subst vt; clear Hvt. cbn [s_values] in Hfit.
  split; [exact Hout |]. split; [exact Hdf |].
  exists vocab, matrix, (map (astype_str str_of_number) (map (cell_at i) (rows (df a0)))).
  rewrite Hdf. repeat split; trivial.
  - now rewrite (fit_transform_length _ _ _ Hfit), !length_map.
  - rewrite map_map. apply Forall2_map_r_In. intros record Hin.
    rewrite Hrows in Hin. apply in_map_iff in Hin. destruct Hin as [row0 [<- Hin0]].
    destruct (loaded_row_cells parse_numeric raw i j row0
                (read_csv_well_formed _ _ Hr) Hi Hj Hin0) as [Ht _].
    unfold row_field. rewrite Hi', Ht. reflexivity.
Qed.

(** What the loader and [preprocess_data] establish, without the surah. *)
Lemma built_index
  (path : string) (out0 out1 : list event) (a0 a : QuranFruitAnalyzer Vocab Vec) :
  __init__ Vocab Vec read_csv parse_numeric path = (out0, Ok a0) ->
  preprocess_data fit_transform str_of_number a0 = (out1, Ok a) ->
  exists vocab matrix i,
    vectorizer a = Some vocab /\ tfidf_matrix a = Some matrix /\
    List.length matrix = List.length (rows (df a)) /\
    col_index "verse_text" (columns (df a)) = Some i.
Proof.
  intros Hinit Hpre.
  destruct (preprocess_data_inv _ _ _ _ _ _ _ Hpre)
    as [vt [vocab [matrix [_ [Hdf [Hvt [Hfit [Hv Hm]]]]]]]].
  destruct (init_verse_text_series _ _ _ _ _ _ _ Hinit) as [raw [i [_ [_ [Hi Hser]]]]].
  rewrite Hser in Hvt. inversion Hvt; subst vt; clear Hvt. cbn [s_values] in Hfit.
  exists vocab, matrix, i. rewrite Hdf. repeat split; trivial.
  now rewrite (fit_transform_length _ _ _ Hfit), !length_map.
Qed.

(** X11. A table without a surah column can be loaded and indexed, but
    every query on it comes back empty: the filter on the surah raises
    KeyError, which the query prints before returning the empty table. *)
Theorem find_related_verses_without_surah
  (path : string) (out0 out1 : list event) (a0 a : QuranFruitAnalyzer Vocab Vec)
  (fruit_name : pystr) (top_n : Z) :
  __init__ Vocab Vec read_csv parse_numeric path = (out0, Ok a0) ->
  preprocess_data fit_transform str_of_number a0 = (out1, Ok a) ->
  col_index "surah" (columns (df a)) = None ->
  find_related_verses transform cosine argsort a fruit_name top_n =
  ([ErrorSearchingVerses (KeyError "surah")], Ok empty_frame).
Proof.
  intros Hinit Hpre Hk.
  destruct (built_index _ _ _ _ _ Hinit Hpre) as [vocab [matrix [i [Hv [Hm [Hlen Hi]]]]]].
  unfold find_related_verses, vectorizer_transform, get_tfidf_matrix.
  rewrite Hv, Hm, !bind_lift_ok. cbv zeta.
  unfold iloc. rewrite take_rows_ok.
  - rewrite bind_lift_ok. unfold getitem. cbn [columns rows]. rewrite Hi, Hk.
    rewrite bind_lift_ok. reflexivity.
  - intros idx Hin. apply (valid_indices_in_range _ _ argsort_perm) in Hin.
    now rewrite length_map, Hlen in Hin.
Qed.

(** X12. With [top_n] 0 a query does not come back empty: the slice
    [[-0:]] keeps every position, and all the documents are returned, by
    descending score.  With a negative [top_n] the slice drops [-top_n]
    positions instead of keeping that many: the query returns, by
    descending score, as many documents as the corpus has beyond
    [-top_n]. *)
Theorem find_related_verses_nonpositive_top_n
  (path : string) (out0 out1 : list event) (a0 a : QuranFruitAnalyzer Vocab Vec)
  (fruit_name : pystr) (top_n : Z) (k : nat) :
  __init__ Vocab Vec read_csv parse_numeric path = (out0, Ok a0) ->
  preprocess_data fit_transform str_of_number a0 = (out1, Ok a) ->
  col_index "surah" (columns (df a)) = Some k ->
  (top_n <= 0)%Z ->
  exists vocab matrix indices,
    vectorizer a = Some vocab /\ tfidf_matrix a = Some matrix /\
    find_related_verses transform cosine argsort a fruit_name top_n =
    ([], Ok (mkDataFrame (columns (df a)) (rows_at (df a) indices))) /\
    List.length indices = List.length (rows (df a)) - Z.to_nat (- top_n) /\
    StronglySorted
      (fun i j =>
         score_le_at score_leb (map (cosine (transform vocab fruit_name)) matrix) j i)
      indices /\
    (top_n = 0%Z ->
     Permutation indices (seq 0 (List.length (rows (df a)))) /\
     Permutation (rows_at (df a) indices) (rows (df a))).
Proof.
  intros Hinit Hpre Hk Hnonpos.
  destruct (built_corpus _ _ _ _ _ _ fit_transform_length read_csv_well_formed
              _ _ _ _ _ _ Hinit Hpre Hk)
    as [vocab [matrix [i [Hv [Hm [Hlen [Hi Hna]]]]]]].
  set (similarity := map (cosine (transform vocab fruit_name)) matrix).
  assert (Hsim : List.length similarity = List.length (rows (df a)))
    by (unfold similarity; now rewrite length_map).
  exists vocab, matrix, (valid_indices_of argsort similarity top_n).
  split; [exact Hv |]. split; [exact Hm |].
  split.
  { apply find_related_verses_built with i k; trivial.
    intros idx Hin. rewrite <- Hsim.
    now apply (valid_indices_in_range _ _ argsort_perm) with top_n. }
  split.
  { unfold valid_indices_of.
    rewrite length_rev, slice_from_neg_nonpositive, length_skipn by exact Hnonpos.
    rewrite (Permutation_length (argsort_perm similarity)), length_seq. lia. }
  split; [apply (valid_indices_descending _ _ _ argsort_sorted) |].
  intros ->.
  assert (Hperm : Permutation (valid_indices_of argsort similarity 0)
                    (seq 0 (List.length (rows (df a))))).
  { rewrite <- Hsim. unfold valid_indices_of, slice_from_neg. cbn [Z.opp Z.ltb Z.compare].
    rewrite Z.min_l by lia. cbn [Z.to_nat skipn].
    apply Permutation_trans with (argsort similarity);
      [apply Permutation_sym, Permutation_rev | apply argsort_perm]. }
  split; [exact Hperm |].
  apply Permutation_trans with (rows_at (df a) (seq 0 (List.length (rows (df a))))).
  - unfold rows_at. now apply Permutation_map.
  - rewrite rows_at_seq. apply Permutation_refl.
Qed.

(** X13. The records of a query are the best ones: on a built corpus, for
    every [top_n], no document left out of the result has a higher score
    than a document of the result. *)
Theorem find_related_verses_returns_the_best
  (path : string) (out0 out1 : list event) (a0 a : QuranFruitAnalyzer Vocab Vec)
  (fruit_name : pystr) (top_n : Z) (k : nat) :
  __init__ Vocab Vec read_csv parse_numeric path = (out0, Ok a0) ->
  preprocess_data fit_transform str_of_number a0 = (out1, Ok a) ->
  col_index "surah" (columns (df a)) = Some k ->
  exists vocab matrix indices,
    vectorizer a = Some vocab /\ tfidf_matrix a = Some matrix /\
    find_related_verses transform cosine argsort a fruit_name top_n =
    ([], Ok (mkDataFrame (columns (df a)) (rows_at (df a) indices))) /\
    forall kept left_out,
      In kept indices ->
      left_out < List.length (rows (df a)) -> ~ In left_out indices ->
      score_le_at score_leb (map (cosine (transform vocab fruit_name)) matrix)
        left_out kept.
Proof.
  intros Hinit Hpre Hk.
  destruct (built_corpus _ _ _ _ _ _ fit_transform_length read_csv_well_formed
              _ _ _ _ _ _ Hinit Hpre Hk)
    as [vocab [matrix [i [Hv [Hm [Hlen [Hi Hna]]]]]]].
  set (similarity := map (cosine (transform vocab fruit_name)) matrix).
  assert (Hsim : List.length similarity = List.length (rows (df a)))
    by (unfold similarity; now rewrite length_map).
  exists vocab, matrix, (valid_indices_of argsort similarity top_n).
  split; [exact Hv |]. split; [exact Hm |].
  split.
  { apply find_related_verses_built with i k; trivial.
    intros idx Hin. rewrite <- Hsim.
    now apply (valid_indices_in_range _ _ argsort_perm) with top_n. }
  intros kept left_out Hkept Hlt Hout.
  unfold valid_indices_of, slice_from_neg in Hkept, Hout.
  set (start := Z.to_nat _) in Hkept, Hout.
  apply in_rev in Hkept. rewrite <- in_rev in Hout.
  assert (Hin : In left_out (argsort similarity)).
  { apply (Permutation_in _ (Permutation_sym (argsort_perm similarity))).
    apply in_seq. rewrite Hsim. lia. }
  rewrite <- (firstn_skipn start (argsort similarity)) in Hin.
  apply in_app_or in Hin. destruct Hin as [Hin | Hin]; [| contradiction].
  apply (StronglySorted_app_inv _ (firstn start (argsort similarity))
           (skipn start (argsort similarity))); trivial.
  rewrite firstn_skipn. apply argsort_sorted.
Qed.

End IndexDetails.

(** ** The frequency counter, in detail *)

Lemma list_sum_le (f : cell -> nat) (bound : nat) (values : list cell) :
  (forall c, f c <= bound) ->
  list_sum (map f values) <= bound * List.length values.
Proof.
  intros H. induction values as [| c values IH]; cbn [map List.length].
  - rewrite list_sum_cons_eq || simpl. lia.
  - rewrite list_sum_cons_eq. specialize (H c). lia.
Qed.

Lemma list_sum_zero (f : cell -> nat) (values : list cell) :
  list_sum (map f values) = 0 <-> forall c, In c values -> f c = 0.
Proof.
  induction values as [| c values IH]; cbn [map].
  - split; [intros _ c [] | reflexivity].
  - rewrite list_sum_cons_eq. split.
    + intros H x [<- | Hx]; [lia |]. apply IH; [lia | exact Hx].
    + intros H. rewrite (H c (or_introl eq_refl)).
      apply IH. intros x Hx. apply H. now right.
Qed.

Lemma matching_variants_zero (variations : list pystr) (c : cell) :
  matching_variants variations c = 0 <->
  forall v, In v variations -> cell_contains v c = false.
Proof.
  unfold matching_variants. induction variations as [| v vs IH]; cbn [filter].
  - split; [intros _ v [] | reflexivity].
  - destruct (cell_contains v c) eqn:E; cbn [List.length].
    + split; [discriminate |]. intros H. specialize (H v (or_introl eq_refl)). congruence.
    + rewrite IH. split.
      * intros H x [<- | Hx]; [exact E | now apply H].
      * intros H x Hx. apply H. now right.
Qed.

Section FrequencyDetails.

Variables Vocab Vec : Type.
Variable self : QuranFruitAnalyzer Vocab Vec.

Lemma analyze_fruits_frequency_missing_column :
  col_index "verse_text" (columns (df self)) = None ->
  analyze_fruits_frequency self =
  ([ErrorInFrequencyAnalysis (KeyError "verse_text")], Raise (KeyError "verse_text")).
Proof.
  intros H. unfold analyze_fruits_frequency, fruit_variations.
  cbn [for_each fst snd]. rewrite (getitem_missing _ _ H). reflexivity.
Qed.

(** X14. What the counter returns: either it prints nothing and returns a
    dictionary whose keys are the five labels, in the order of the
    lexicon, or it prints the error and the first verse and returns the
    empty dictionary. *)
Theorem analyze_fruits_frequency_result
  (out : list event) (fruit_counts : list (pystr * nat)) :
  analyze_fruits_frequency self = (out, Ok fruit_counts) ->
  (out = [] /\ map fst fruit_counts = [PALM; GRAPE; POMEGRANATE; OLIVE; FIG]) \/
  (exists e first,
     out = [ErrorInFrequencyAnalysis e; CurrentTextBeingProcessed first] /\
     fruit_counts = []).
Proof.
  intros H.
  destruct (col_index "verse_text" (columns (df self))) as [i |] eqn:Hi.
  - pose proof (getitem_Some _ _ _ Hi) as Hget.
    set (verse_text := mkSeries _ _) in Hget.
    destruct (str_accessor verse_text) as [values | e] eqn:Hstr.
    + rewrite (analyze_fruits_frequency_ok _ _ self verse_text values Hget Hstr) in H.
      inversion H; subst. left. split; [reflexivity |].
      rewrite frequency_table_map, map_map. reflexivity.
    + rewrite (analyze_fruits_frequency_handler _ _ self verse_text e Hget Hstr) in H.
      destruct (iloc0 verse_text) as [first | e']; inversion H; subst.
      right. now exists e, first.
  - rewrite (analyze_fruits_frequency_missing_column Hi) in H. discriminate.
Qed.

(** X15. The counter raises in two cases only: KeyError when the table has
    no verse_text column, and IndexError when the [.str] accessor has
    refused the column of a table without rows.  On a table with a
    verse_text column and at least one row it never raises. *)
Theorem analyze_fruits_frequency_raises_only
  (out : list event) (e : exn) :
  analyze_fruits_frequency self = (out, Raise e) ->
  (e = KeyError "verse_text" /\ col_index "verse_text" (columns (df self)) = None) \/
  (e = IndexError /\ rows (df self) = [] /\
   out = [ErrorInFrequencyAnalysis AttributeError]).
Proof.
  intros H.
  destruct (col_index "verse_text" (columns (df self))) as [i |] eqn:Hi.
  - right. pose proof (getitem_Some _ _ _ Hi) as Hget.
    set (verse_text := mkSeries _ _) in Hget.
    destruct (str_accessor verse_text) as [values | e0] eqn:Hstr.
    + rewrite (analyze_fruits_frequency_ok _ _ self verse_text values Hget Hstr) in H.
      discriminate.
    + rewrite (analyze_fruits_frequency_handler _ _ self verse_text e0 Hget Hstr) in H.
      assert (He0 : e0 = AttributeError).
      { unfold str_accessor in Hstr.
        destruct (s_dtype verse_text); [| now inversion Hstr].
        destruct (existsb is_str (s_values verse_text) ||
                  negb (existsb notna (s_values verse_text)));
          [discriminate | now inversion Hstr]. }
      subst e0. unfold iloc0 in H. unfold verse_text in H. cbn [s_values] in H.
      destruct (rows (df self)) as [| row rs]; cbn [map] in H; inversion H; subst.
      repeat split.
  - left. rewrite (analyze_fruits_frequency_missing_column Hi) in H.
    inversion H; subst. now split.
Qed.

(** X16. Bounds of a count.  When the counter succeeds, the count of a
    category is at most the number of its variants times the number of
    rows, and it is 0 exactly when no row contains any of its variants. *)
Theorem analyze_fruits_frequency_bounds
  (verse_text : Series) (values : list cell) (label : pystr) (variations : list pystr) :
  getitem (df self) "verse_text" = Ok verse_text ->
  str_accessor verse_text = Ok values ->
  In (label, variations) fruit_variations ->
  exists fruit_counts count,
    analyze_fruits_frequency self = ([], Ok fruit_counts) /\
    dict_get fruit_counts label = Some count /\
    count <= List.length variations * List.length values /\
    (count = 0 <->
     forall v c, In v variations -> In c values -> cell_contains v c = false).
Proof.
  intros Hget Hstr Hin.
  exists (frequency_table values), (category_count variations values).
  split; [now apply (analyze_fruits_frequency_ok _ _ self verse_text) |].
  split; [now apply frequency_table_get |].
  rewrite category_count_rows. split.
  - apply list_sum_le. intros c. unfold matching_variants. apply filter_length_le.
  - rewrite list_sum_zero. split.
    + intros H v c Hv Hc. now apply (matching_variants_zero variations c); [apply H |].
    + intros H c Hc. apply matching_variants_zero. intros v Hv. now apply H.
Qed.

End FrequencyDetails.

Section FrequencyOnLoadedCorpus.

Variables Vocab Vec : Type.
Variable read_csv : string -> result DataFrame.
Variable parse_numeric : pystr -> option number.

(** X17. On a corpus that the loader left without rows, the outcome of the
    counter depends on the dtype the verse_text column was read with: an
    object column gives the five categories mapped to 0, a numeric column
    makes the counter print AttributeError and raise IndexError. *)
Theorem analyze_on_empty_loaded_corpus
  (path : string) (out : list event) (a : QuranFruitAnalyzer Vocab Vec) :
  __init__ Vocab Vec read_csv parse_numeric path = (out, Ok a) ->
  rows (df a) = [] ->
  exists raw i,
    read_csv path = Ok raw /\
    col_index "verse_text" (columns raw) = Some i /\
    analyze_fruits_frequency a =
    match snd (nth i (columns raw) ("verse_text"%string, DObject)) with
    | DObject => ([], Ok [(PALM, 0); (GRAPE, 0); (POMEGRANATE, 0); (OLIVE, 0); (FIG, 0)])
    | DNumeric => ([ErrorInFrequencyAnalysis AttributeError], Raise IndexError)
    end.
Proof.
  intros Hinit Hrows.
  destruct (init_verse_text_series _ _ _ _ _ _ _ Hinit) as [raw [i [Hr [Hi [_ Hser]]]]].
  exists raw, i. split; [exact Hr |]. split; [exact Hi |].
  rewrite Hrows in Hser. cbn [map] in Hser.
  destruct (snd (nth i (columns raw) ("verse_text"%string, DObject))).
  - now apply analyze_fruits_frequency_empty_object.
  - now apply analyze_fruits_frequency_empty_numeric.
Qed.

(** Tables are rectangular. *)
Hypothesis read_csv_well_formed :
  forall path raw, read_csv path = Ok raw -> well_formed raw = true.

(** X18. On a corpus with at least one record the counter never fails: the
    loader has made verse_text a column of strings, so the counter prints
    nothing and returns, for each category in the order of the lexicon,
    the sum of the counts of its variants over the verse_text column. *)
Theorem analyze_on_loaded_corpus
  (path : string) (out : list event) (a : QuranFruitAnalyzer Vocab Vec) :
  __init__ Vocab Vec read_csv parse_numeric path = (out, Ok a) ->
  rows (df a) <> [] ->
  exists i,
    col_index "verse_text" (columns (df a)) = Some i /\
    analyze_fruits_frequency a =
    ([], Ok (map (fun entry =>
                    (fst entry,
                     category_count (snd entry) (map (cell_at i) (rows (df a)))))
               fruit_variations)).
Proof.
  intros Hinit Hne.
  destruct (init_verse_text_series _ _ _ _ _ _ _ Hinit) as [raw0 [i [_ [_ [Hi Hser]]]]].
  destruct (init_inv _ _ _ _ _ _ _ Hinit) as [raw [i' [j [Hr [_ [Hi' [Hj [Hc [Hrows _]]]]]]]]].
  assert (i' = i) as ->.
  { rewrite (col_index_names _ _ _ Hc) in Hi. congruence. }
  exists i. split; [exact Hi |].
  rewrite <- frequency_table_map.
  apply (analyze_fruits_frequency_ok _ _ a _ _ Hser).
  destruct (rows (df a)) as [| record records] eqn:Hrec; [contradiction |].
  unfold str_accessor. cbn [s_dtype s_values map existsb].
  assert (Hin : In record (map (loaded_row parse_numeric i j)
                             (filter (forallb notna) (rows raw))))
    by (rewrite <- Hrows; now left).
  apply in_map_iff in Hin. destruct Hin as [row0 [<- Hin0]].
  destruct (loaded_row_cells parse_numeric raw i j row0
              (read_csv_well_formed _ _ Hr) Hi' Hj Hin0) as [Ht _].
  rewrite Ht. reflexivity.
Qed.

End FrequencyOnLoadedCorpus.

(** ** The interactive loop, in detail *)

Lemma bind_print {B} (ev : event) (k : unit -> M B) :
  bind (print ev) k = (ev :: fst (k tt), snd (k tt)).
Proof. unfold bind, print. now destruct (k tt). Qed.

Lemma bind_pair {A B} (m : M A) (k : A -> M B) (out : list event) (a : A) :
  m = (out, Ok a) -> bind m k = (out ++ fst (k a), snd (k a)).
Proof. intros ->. unfold bind. now destruct (k a). Qed.

Lemma bind_raise {A B} (m : M A) (k : A -> M B) (out : list event) (e : exn) :
  m = (out, Raise e) -> bind m k = (out, Raise e).
Proof. now intros ->. Qed.

Lemma for_each_print {A} (l : list A) (f : A -> event) :
  for_each l (fun _ x => print (f x)) tt = (map f l, Ok tt).
Proof.
  induction l as [| x l IH]; [reflexivity |].
  cbn [for_each map]. rewrite bind_print, IH. reflexivity.
Qed.

Lemma surjective_M {A} (m : M A) : m = (fst m, snd m).
Proof. now destruct m. Qed.

Section MainDetails.

Variables Vocab Vec Score : Type.
Variable fit_transform : list pystr -> result (Vocab * list Vec).
Variable transform : Vocab -> pystr -> Vec.
Variable cosine : Vec -> Vec -> Score.
Variable score_leb : Score -> Score -> bool.
Variable argsort : list Score -> list nat.
Variable read_csv : string -> result DataFrame.
Variable parse_numeric : pystr -> option number.
Variable str_of_number : number -> pystr.

(** X19. [main] never raises: whatever the files, the libraries and the
    lines typed, every exception of the loader, of the index, of the
    counter or of [input] ends in its handler and [main] returns. *)
Theorem main_never_raises (inputs : list pystr) :
  exists out,
    main fit_transform transform cosine argsort read_csv parse_numeric str_of_number inputs =
    (out, Ok tt).
Proof.
  unfold main.
  match goal with |- context [try_except ?body _] => destruct body as [out [[] | e]] end.
  - now exists out.
  - now exists (out ++ [GeneralProgramError e]).
Qed.

Lemma menu_loop_invalid (a : QuranFruitAnalyzer Vocab Vec) (choice : pystr) (rest : list pystr) :
  is_menu_option choice = false ->
  menu_loop transform cosine argsort a (choice :: rest) =
  (Menu :: PromptOption :: InvalidOption :: fst (menu_loop transform cosine argsort a rest),
   snd (menu_loop transform cosine argsort a rest)).
Proof.
  unfold is_menu_option. intros H.
  apply orb_false_iff in H. destruct H as [H H3].
  apply orb_false_iff in H. destruct H as [H1 H2].
  cbn [menu_loop]. rewrite H1, H2, H3, !bind_print. reflexivity.
Qed.

Lemma menu_loop_exit (a : QuranFruitAnalyzer Vocab Vec) (rest : list pystr) :
  menu_loop transform cosine argsort a (ascii_str "3" :: rest) =
  ([Menu; PromptOption; ProgramEnded], Ok tt).
Proof. reflexivity. Qed.

(** X20. Choices other than 1, 2 and 3 are answered by the invalid-option
    line and change nothing: after any number of them the choice 3 ends
    the loop normally, and what was typed after it is not read. *)
Theorem menu_loop_invalid_then_exit
  (a : QuranFruitAnalyzer Vocab Vec) (invalid rest : list pystr) :
  Forall (fun choice => is_menu_option choice = false) invalid ->
  menu_loop transform cosine argsort a (invalid ++ ascii_str "3" :: rest) =
  (flat_map (fun _ => [Menu; PromptOption; InvalidOption]) invalid ++
   [Menu; PromptOption; ProgramEnded], Ok tt).
Proof.
  induction 1 as [| choice invalid Hc _ IH]; [apply menu_loop_exit |].
  cbn [app flat_map]. rewrite (menu_loop_invalid a choice _ Hc), IH. reflexivity.
Qed.

(** X21. The choice 2 on an analyzer whose counter succeeds: the loop
    prints the header and one line per category, in the order of the
    dictionary, and goes on with the next choice. *)
Theorem menu_loop_frequencies
  (a : QuranFruitAnalyzer Vocab Vec) (fruit_counts : list (pystr * nat)) (rest : list pystr) :
  analyze_fruits_frequency a = ([], Ok fruit_counts) ->
  menu_loop transform cosine argsort a (ascii_str "2" :: rest) =
  ([Menu; PromptOption; FrequenciesHeader] ++
   map (fun item => FrequencyLine (fst item) (snd item)) fruit_counts ++
   fst (menu_loop transform cosine argsort a rest),
   snd (menu_loop transform cosine argsort a rest)).
Proof.
  intros H. cbn [menu_loop].
  change (pystr_eqb (ascii_str "2") (ascii_str "1")) with false.
  change (pystr_eqb (ascii_str "2") (ascii_str "2")) with true. cbv iota.
  rewrite !bind_print, (bind_pair _ _ _ _ H). cbn [fst snd app].
  rewrite bind_print. cbn [fst snd].
  rewrite (bind_pair _ _ _ _ (for_each_print fruit_counts _)). reflexivity.
Qed.

Lemma for_each_print_verse (cols : list (string * dtype)) (k j i : nat)
  (verses : list (list cell)) :
  col_index "surah" cols = Some k ->
  col_index "verse_number" cols = Some j ->
  col_index "verse_text" cols = Some i ->
  for_each verses (fun _ row => print_verse cols row) tt =
  (map (verse_line k j i) verses, Ok tt).
Proof.
  intros Hk Hj Hi. induction verses as [| row verses IH]; [reflexivity |].
  cbn [for_each map]. unfold print_verse at 1, row_field.
  rewrite Hk, Hj, Hi, !bind_lift_ok, bind_print, IH. reflexivity.
Qed.

(** The contract of the libraries, as for the ranking. *)
Hypothesis fit_transform_length :
  forall texts vocab matrix,
    fit_transform texts = Ok (vocab, matrix) -> List.length matrix = List.length texts.
Hypothesis argsort_perm :
  forall similarity, Permutation (argsort similarity) (seq 0 (List.length similarity)).
Hypothesis read_csv_well_formed :
  forall path raw, read_csv path = Ok raw -> well_formed raw = true.

(** X23. The choice 1 on a built corpus with its surah column: the loop
    asks for the word and prints at most five verses, each a record of the
    corpus shown with its surah, verse_number and verse_text, under their
    header, or the no-verses line when there is none; then it goes on with
    the next choice. *)
Theorem menu_loop_search
  (path : string) (out0 out1 : list event) (a0 a : QuranFruitAnalyzer Vocab Vec)
  (fruit : pystr) (rest : list pystr) (k : nat) :
  __init__ Vocab Vec read_csv parse_numeric path = (out0, Ok a0) ->
  preprocess_data fit_transform str_of_number a0 = (out1, Ok a) ->
  col_index "surah" (columns (df a)) = Some k ->
  exists verses j i,
    col_index "verse_number" (columns (df a)) = Some j /\
    col_index "verse_text" (columns (df a)) = Some i /\
    List.length verses <= 5 /\
    Forall (fun row => In row (rows (df a))) verses /\
    menu_loop transform cosine argsort a (ascii_str "1" :: fruit :: rest) =
    ([Menu; PromptOption; PromptFruitName] ++
     match verses with
     | [] => [NoVersesFound]
     | _ :: _ => RelatedVersesHeader :: map (verse_line k j i) verses
     end ++
     fst (menu_loop transform cosine argsort a rest),
     snd (menu_loop transform cosine argsort a rest)).
Proof.
  intros Hinit Hpre Hk.
  destruct (built_corpus _ _ _ _ _ _ fit_transform_length read_csv_well_formed
              _ _ _ _ _ _ Hinit Hpre Hk)
    as [vocab [matrix [i [Hv [Hm [Hlen [Hi Hna]]]]]]].
  destruct (preprocess_data_inv _ _ _ _ _ _ _ Hpre) as [_ [_ [_ [_ [Hdf _]]]]].
  destruct (init_inv _ _ _ _ _ _ _ Hinit) as [raw [_ [j [_ [_ [_ [Hj [Hc _]]]]]]]].
  rewrite <- (col_index_names _ _ _ Hc), <- Hdf in Hj.
  set (similarity := map (cosine (transform vocab fruit)) matrix).
  assert (Hsim : List.length similarity = List.length (rows (df a)))
    by (unfold similarity; now rewrite length_map).
  assert (Hrange : forall idx, In idx (valid_indices_of argsort similarity 5) ->
                               idx < List.length (rows (df a))).
  { intros idx Hin. rewrite <- Hsim.
    now apply (valid_indices_in_range _ _ argsort_perm) with 5%Z. }
  pose proof (find_related_verses_built _ _ _ transform cosine argsort a vocab matrix
                fruit 5 i k Hv Hm Hi Hk Hna Hrange) as Hfind.
  fold similarity in Hfind.
  exists (rows_at (df a) (valid_indices_of argsort similarity 5)), j, i.
  split; [exact Hj |]. split; [exact Hi |].
  split.
  { unfold rows_at. rewrite length_map.
    rewrite (valid_indices_length _ _ argsort_perm) by lia. lia. }
  split; [now apply rows_at_In |].
  cbn [menu_loop].
  change (pystr_eqb (ascii_str "1") (ascii_str "1")) with true. cbv iota.
  rewrite !bind_print, (bind_pair _ _ _ _ Hfind). cbn [fst snd app].
  unfold frame_empty. cbn [columns rows].
  destruct (columns (df a)) as [| col cols] eqn:Hcols; [discriminate |].
  destruct (rows_at (df a) (valid_indices_of argsort similarity 5)) as [| row verses].
  - cbn [negb]. rewrite bind_print. reflexivity.
  - cbn [negb].
    rewrite (for_each_print_verse (col :: cols) k j i (row :: verses) Hk Hj Hi).
    rewrite bind_print. cbn [fst snd].
    rewrite (bind_pair _ _ _ _ eq_refl). reflexivity.
Qed.

(** scikit-learn: a vectorizer cannot be fitted on no document at all. *)
Hypothesis fit_transform_rejects_empty :
  forall fitted, fit_transform [] <> Ok fitted.

(** X22. In a running session the counter cannot fail.  The vectorizer
    rejects an empty corpus, so a corpus that has been loaded and indexed
    has at least one record and a verse_text column of strings: for the
    choice 2 the counter prints no error, the loop prints the header and
    the line of each of the five categories, in the order of the lexicon,
    and goes on with the next choice. *)
Theorem menu_loop_frequencies_on_built_corpus
  (path : string) (out0 out1 : list event) (a0 a : QuranFruitAnalyzer Vocab Vec)
  (rest : list pystr) :
  __init__ Vocab Vec read_csv parse_numeric path = (out0, Ok a0) ->
  preprocess_data fit_transform str_of_number a0 = (out1, Ok a) ->
  rows (df a) <> [] /\
  exists i,
    col_index "verse_text" (columns (df a)) = Some i /\
    analyze_fruits_frequency a =
    ([], Ok (map (fun entry =>
                    (fst entry,
                     category_count (snd entry) (map (cell_at i) (rows (df a)))))
               fruit_variations)) /\
    menu_loop transform cosine argsort a (ascii_str "2" :: rest) =
    ([Menu; PromptOption; FrequenciesHeader] ++
     map (fun entry =>
            FrequencyLine (fst entry)
              (category_count (snd entry) (map (cell_at i) (rows (df a)))))
       fruit_variations ++
     fst (menu_loop transform cosine argsort a rest),
     snd (menu_loop transform cosine argsort a rest)).
Proof.
  intros Hinit Hpre.
  destruct (preprocess_data_inv _ _ _ _ _ _ _ Hpre)
    as [vt [vocab [matrix [_ [Hdf [Hvt [Hfit _]]]]]]].
  destruct (init_verse_text_series _ _ _ _ _ _ _ Hinit) as [raw0 [i [_ [_ [Hi Hser]]]]].
  destruct (init_inv _ _ _ _ _ _ _ Hinit) as [raw [i' [j [Hr [_ [Hi' [Hj [Hc [Hrows _]]]]]]]]].
  assert (i' = i) as ->.
  { rewrite (col_index_names _ _ _ Hc) in Hi. congruence. }
  rewrite <- Hdf in Hi, Hser, Hrows.
  rewrite <- Hdf, Hser in Hvt. inversion Hvt; subst vt; clear Hvt. cbn [s_values] in Hfit.
  assert (Hne : rows (df a) <> []).
  { intros Hnil. rewrite Hnil in Hfit. cbn [map] in Hfit.
    exact (fit_transform_rejects_empty _ Hfit). }
  split; [exact Hne |]. exists i. split; [exact Hi |].
  assert (Hrun : analyze_fruits_frequency a =
                 ([], Ok (frequency_table (map (cell_at i) (rows (df a)))))).
  { apply (analyze_fruits_frequency_ok _ _ a _ _ Hser).
    destruct (rows (df a)) as [| record records] eqn:Hrec; [contradiction |].
    unfold str_accessor. cbn [s_dtype s_values map existsb].
    assert (Hin : In record (map (loaded_row parse_numeric i j)
                               (filter (forallb notna) (rows raw))))
      by (rewrite <- Hrows; now left).
    apply in_map_iff in Hin. destruct Hin as [row0 [<- Hin0]].
    destruct (loaded_row_cells parse_numeric raw i j row0
                (read_csv_well_formed _ _ Hr) Hi' Hj Hin0) as [Ht _].
    rewrite Ht. reflexivity. }
  rewrite frequency_table_map in Hrun.
  split; [exact Hrun |].
  cbn [menu_loop].
  change (pystr_eqb (ascii_str "2") (ascii_str "1")) with false.
  change (pystr_eqb (ascii_str "2") (ascii_str "2")) with true. cbv iota.
  rewrite !bind_print, (bind_pair _ _ _ _ Hrun). cbn [fst snd app].
  rewrite bind_print. cbn [fst snd].
  rewrite (bind_pair _ _ _ _ (for_each_print _ _)), map_map. reflexivity.
Qed.

End MainDetails.

(** ** The further properties on the sample files *)

(** X5 on quran_verses.csv: three records for the three complete rows. *)
Lemma loader_keeps_complete_rows_witness :
  exists a raw,
    demo_init "quran_verses.csv" = ([], Ok a) /\
    demo_read_csv "quran_verses.csv" = Ok raw /\
    List.length (rows (df a)) = List.length (filter (forallb notna) (rows raw)).
Proof.
  eexists.
  assert (H : demo_init "quran_verses.csv" = ([], Ok _)) by (vm_compute; reflexivity).
  destruct (loader_keeps_complete_rows unit pystr demo_read_csv parse_decimal
              "quran_verses.csv" [] _ H)
    as [raw [i [j [Hraw [_ [_ [_ Hrows]]]]]]].
  exists raw. split; [exact H |]. split; [exact Hraw |].
  exact (Forall2_length Hrows).
Defined.

(** X7 on quran_verses.csv. *)
Lemma loader_texts_normalized_witness :
  exists a,
    demo_init "quran_verses.csv" = ([], Ok a) /\
    forall row, In row (rows (df a)) ->
      exists text,
        row_field (columns (df a)) row "verse_text" = Ok (Str text) /\
        _normalize_arabic (Str text) = text /\
        forallb (fun c => negb (normalizer_changes c)) text = true.
Proof.
  eexists.
  assert (H : demo_init "quran_verses.csv" = ([], Ok _)) by (vm_compute; reflexivity).
  split; [exact H |].
  exact (loader_texts_normalized unit pystr demo_read_csv parse_decimal
           demo_read_csv_well_formed "quran_verses.csv" [] _ H).
Defined.

(** X9 in a directory whose quran_verses.csv has one row, with a blank
    verse_text: the corpus is empty and the vectorizer finds no word. *)
Lemma preprocess_failure_is_fatal_witness :
  main demo_fit_transform demo_transform demo_cosine stable_argsort
    blank_text_files parse_decimal demo_str_of_number [ascii_str "2"; ascii_str "3"] =
  ([ErrorProcessingData ValueError; GeneralProgramError ValueError], Ok tt).
Proof.
  refine (proj2 (preprocess_failure_is_fatal unit pystr Z demo_fit_transform demo_transform
                   demo_cosine stable_argsort blank_text_files parse_decimal
                   demo_str_of_number [] [ErrorProcessingData ValueError] _ ValueError _ _)
            [ascii_str "2"; ascii_str "3"]); vm_compute; reflexivity.
Defined.

(** X10 on quran_verses.csv. *)
Lemma preprocess_data_indexes_the_corpus_witness :
  exists a0 a,
    demo_init "quran_verses.csv" = ([], Ok a0) /\
    preprocess_data demo_fit_transform demo_str_of_number a0 = ([], Ok a) /\
    df a = df a0 /\
    exists vocab matrix texts,
      demo_fit_transform texts = Ok (vocab, matrix) /\
      vectorizer a = Some vocab /\ tfidf_matrix a = Some matrix /\
      List.length matrix = List.length (rows (df a)) /\
      Forall2
        (fun record text => row_field (columns (df a)) record "verse_text" = Ok (Str text))
        (rows (df a)) texts.
Proof.
  eexists. eexists. split; [vm_compute; reflexivity |].
  split; [vm_compute; reflexivity |].
  refine (proj2 (preprocess_data_indexes_the_corpus unit pystr demo_fit_transform
                   demo_read_csv parse_decimal demo_str_of_number
                   demo_fit_transform_length demo_read_csv_well_formed
                   "quran_verses.csv" [] [] _ _ _ _)); vm_compute; reflexivity.
Defined.

(** X11 on a table without a surah column. *)
Lemma find_related_verses_without_surah_witness :
  exists a0 a,
    __init__ unit pystr no_surah_files parse_decimal "quran_verses.csv" = ([], Ok a0) /\
    preprocess_data demo_fit_transform demo_str_of_number a0 = ([], Ok a) /\
    find_related_verses demo_transform demo_cosine stable_argsort a palm_query 5 =
    ([ErrorSearchingVerses (KeyError "surah")], Ok empty_frame).
Proof.
  eexists. eexists. split; [vm_compute; reflexivity |].
  split; [vm_compute; reflexivity |].
  eapply (find_related_verses_without_surah unit pystr Z demo_fit_transform
            demo_transform demo_cosine stable_argsort no_surah_files parse_decimal
            demo_str_of_number demo_fit_transform_length stable_argsort_perm
            "quran_verses.csv" [] []).
  - vm_compute. reflexivity.
  - vm_compute. reflexivity.
  - reflexivity.
Defined.

(** X12 on quran_verses.csv with [top_n] 0: the three documents. *)
Lemma find_related_verses_nonpositive_top_n_witness :
  exists a indices,
    demo_built "quran_verses.csv" = ([], Ok a) /\
    find_related_verses demo_transform demo_cosine stable_argsort a palm_query 0 =
    ([], Ok (mkDataFrame (columns (df a)) (rows_at (df a) indices))) /\
    List.length indices = 3.
Proof.
  eexists.
  assert (H : demo_built "quran_verses.csv" = ([], Ok _)) by (vm_compute; reflexivity).
  destruct (find_related_verses_nonpositive_top_n unit pystr Z demo_fit_transform
              demo_transform demo_cosine Z.leb stable_argsort demo_read_csv parse_decimal
              demo_str_of_number demo_fit_transform_length stable_argsort_perm
              stable_argsort_sorted demo_read_csv_well_formed
              "quran_verses.csv" [] [] _ _ palm_query 0 0
              ltac:(vm_compute; reflexivity) ltac:(vm_compute; reflexivity)
              eq_refl ltac:(discriminate))
    as [vocab [matrix [indices [_ [_ [Hfind [Hlen _]]]]]]].
  exists indices. split; [exact H |]. split; [exact Hfind | exact Hlen].
Defined.

(** X13 on quran_verses.csv with [top_n] 1. *)
Lemma find_related_verses_returns_the_best_witness :
  exists a vocab matrix indices,
    demo_built "quran_verses.csv" = ([], Ok a) /\
    vectorizer a = Some vocab /\ tfidf_matrix a = Some matrix /\
    find_related_verses demo_transform demo_cosine stable_argsort a palm_query 1 =
    ([], Ok (mkDataFrame (columns (df a)) (rows_at (df a) indices))) /\
    forall kept left_out,
      In kept indices ->
      left_out < List.length (rows (df a)) -> ~ In left_out indices ->
      score_le_at Z.leb (map (demo_cosine (demo_transform vocab palm_query)) matrix)
        left_out kept.
Proof.
  eexists.
  assert (H : demo_built "quran_verses.csv" = ([], Ok _)) by (vm_compute; reflexivity).
  destruct (find_related_verses_returns_the_best unit pystr Z demo_fit_transform
              demo_transform demo_cosine Z.leb stable_argsort demo_read_csv parse_decimal
              demo_str_of_number demo_fit_transform_length stable_argsort_perm
              stable_argsort_sorted demo_read_csv_well_formed
              "quran_verses.csv" [] [] _ _ palm_query 1 0
              ltac:(vm_compute; reflexivity) ltac:(vm_compute; reflexivity) eq_refl)
    as [vocab [matrix [indices [Hv [Hm [Hfind Hbest]]]]]].
  exists vocab, matrix, indices. repeat split; assumption.
Defined.

(** The analyzer of palms.csv, and the analyzer of blank_text.csv, whose
    corpus is empty and whose verse_text column is numeric. *)
Lemma demo_init_palms :
  demo_init "palms.csv" =
  ([], Ok (mkAnalyzer (mkDataFrame verse_columns [[Num (Int 6); Num (Int 99); Str palms_text]])
             None None)).
Proof. vm_compute. reflexivity. Qed.

Lemma demo_init_blank_text :
  demo_init "blank_text.csv" =
  ([], Ok (mkAnalyzer
             (mkDataFrame
                [("surah"%string, DNumeric); ("verse_number"%string, DNumeric);
                 ("verse_text"%string, DNumeric)] [])
             None None)).
Proof. vm_compute. reflexivity. Qed.

(** X14 on palms.csv. *)
Lemma analyze_fruits_frequency_result_witness :
  exists a out fruit_counts,
    demo_init "palms.csv" = ([], Ok a) /\
    analyze_fruits_frequency a = (out, Ok fruit_counts) /\
    ((out = [] /\ map fst fruit_counts = [PALM; GRAPE; POMEGRANATE; OLIVE; FIG]) \/
     (exists e first,
        out = [ErrorInFrequencyAnalysis e; CurrentTextBeingProcessed first] /\
        fruit_counts = [])).
Proof.
  eexists. eexists. eexists. split; [exact demo_init_palms |].
  assert (H : analyze_fruits_frequency
                (mkAnalyzer (mkDataFrame verse_columns
                               [[Num (Int 6); Num (Int 99); Str palms_text]])
                   (@None unit) (@None (list pystr))) = ([], Ok _))
    by (vm_compute; reflexivity).
  split; [exact H |].
  exact (analyze_fruits_frequency_result unit pystr _ _ _ H).
Defined.

(** X15 on blank_text.csv: the counter raises, and the corpus is empty. *)
Lemma analyze_fruits_frequency_raises_only_witness :
  exists a,
    demo_init "blank_text.csv" = ([], Ok a) /\
    analyze_fruits_frequency a =
    ([ErrorInFrequencyAnalysis AttributeError], Raise IndexError) /\
    rows (df a) = [].
Proof.
  eexists. split; [exact demo_init_blank_text |].
  assert (H : analyze_fruits_frequency
                (mkAnalyzer
                   (mkDataFrame
                      [("surah"%string, DNumeric); ("verse_number"%string, DNumeric);
                       ("verse_text"%string, DNumeric)] [])
                   (@None unit) (@None (list pystr))) =
              ([ErrorInFrequencyAnalysis AttributeError], Raise IndexError))
    by (vm_compute; reflexivity).
  split; [exact H |].
  destruct (analyze_fruits_frequency_raises_only unit pystr _ _ _ H)
    as [[He _] | [_ [Hrows _]]]; [discriminate | exact Hrows].
Defined.

(** X16 on palms.csv, for the palm. *)
Lemma analyze_fruits_frequency_bounds_witness :
  exists fruit_counts count,
    analyze_fruits_frequency
      (mkAnalyzer (mkDataFrame verse_columns [[Num (Int 6); Num (Int 99); Str palms_text]])
         (@None unit) (@None (list pystr))) = ([], Ok fruit_counts) /\
    dict_get fruit_counts PALM = Some count /\
    count <= 7 * 1.
Proof.
  destruct (analyze_fruits_frequency_bounds unit pystr
              (mkAnalyzer (mkDataFrame verse_columns
                             [[Num (Int 6); Num (Int 99); Str palms_text]])
                 (@None unit) (@None (list pystr)))
              (mkSeries DObject [Str palms_text]) [Str palms_text] PALM _
              eq_refl eq_refl (or_introl eq_refl))
    as [fruit_counts [count [Hrun [Hget [Hle _]]]]].
  exists fruit_counts, count. repeat split; assumption.
Defined.

(** X17 on blank_text.csv. *)
Lemma analyze_on_empty_loaded_corpus_witness :
  exists a,
    demo_init "blank_text.csv" = ([], Ok a) /\
    analyze_fruits_frequency a =
    ([ErrorInFrequencyAnalysis AttributeError], Raise IndexError).
Proof.
  eexists. split; [exact demo_init_blank_text |].
  destruct (analyze_on_empty_loaded_corpus unit pystr demo_read_csv parse_decimal
              "blank_text.csv" [] _ demo_init_blank_text eq_refl)
    as [raw [i [Hraw [Hi Hrun]]]].
  vm_compute in Hraw. inversion Hraw; subst raw; clear Hraw.
  vm_compute in Hi. inversion Hi; subst i; clear Hi.
  exact Hrun.
Defined.

(** X18 on palms.csv. *)
Lemma analyze_on_loaded_corpus_witness :
  exists a i,
    demo_init "palms.csv" = ([], Ok a) /\
    col_index "verse_text" (columns (df a)) = Some i /\
    analyze_fruits_frequency a =
    ([], Ok (map (fun entry =>
                    (fst entry,
                     category_count (snd entry) (map (cell_at i) (rows (df a)))))
               fruit_variations)).
Proof.
  eexists.
  destruct (analyze_on_loaded_corpus unit pystr demo_read_csv parse_decimal
              demo_read_csv_well_formed "palms.csv" [] _ demo_init_palms
              ltac:(discriminate))
    as [i [Hi Hrun]].
  exists i. split; [exact demo_init_palms |]. split; [exact Hi | exact Hrun].
Defined.

(** X20: two invalid choices, then 3, then a line that is never read. *)
Lemma menu_loop_invalid_then_exit_witness :
  menu_loop demo_transform demo_cosine stable_argsort
    (mkAnalyzer (mkDataFrame verse_columns []) None None)
    ([ascii_str "9"; ascii_str "exit"] ++ ascii_str "3" :: [ascii_str "1"]) =
  (flat_map (fun _ => [Menu; PromptOption; InvalidOption]) [ascii_str "9"; ascii_str "exit"] ++
   [Menu; PromptOption; ProgramEnded], Ok tt).
Proof.
  apply menu_loop_invalid_then_exit.
  repeat constructor.
Defined.

(** X21 on palms.csv. *)
Lemma menu_loop_frequencies_witness :
  exists a,
    demo_init "palms.csv" = ([], Ok a) /\
    menu_loop demo_transform demo_cosine stable_argsort a [ascii_str "2"; ascii_str "3"] =
    ([Menu; PromptOption; FrequenciesHeader;
      FrequencyLine PALM 2; FrequencyLine GRAPE 0; FrequencyLine POMEGRANATE 0;
      FrequencyLine OLIVE 0; FrequencyLine FIG 0;
      Menu; PromptOption; ProgramEnded], Ok tt).
Proof.
  eexists. split; [exact demo_init_palms |].
  rewrite (menu_loop_frequencies unit pystr Z demo_transform demo_cosine stable_argsort
             _ [(PALM, 2); (GRAPE, 0); (POMEGRANATE, 0); (OLIVE, 0); (FIG, 0)]
             [ascii_str "3"]).
  - reflexivity.
  - vm_compute. reflexivity.
Defined.

Lemma demo_fit_transform_rejects_empty (fitted : unit * list pystr) :
  demo_fit_transform [] <> Ok fitted.
Proof. discriminate. Qed.

(** X22 on quran_verses.csv. *)
Lemma menu_loop_frequencies_on_built_corpus_witness :
  exists a i,
    demo_built "quran_verses.csv" = ([], Ok a) /\
    rows (df a) <> [] /\
    menu_loop demo_transform demo_cosine stable_argsort a [ascii_str "2"; ascii_str "3"] =
    ([Menu; PromptOption; FrequenciesHeader] ++
     map (fun entry =>
            FrequencyLine (fst entry)
              (category_count (snd entry) (map (cell_at i) (rows (df a)))))
       fruit_variations ++
     fst (menu_loop demo_transform demo_cosine stable_argsort a [ascii_str "3"]),
     snd (menu_loop demo_transform demo_cosine stable_argsort a [ascii_str "3"])).
Proof.
  eexists.
  assert (H : demo_built "quran_verses.csv" = ([], Ok _)) by (vm_compute; reflexivity).
  destruct (menu_loop_frequencies_on_built_corpus unit pystr Z demo_fit_transform
              demo_transform demo_cosine stable_argsort demo_read_csv parse_decimal
              demo_str_of_number demo_read_csv_well_formed
              demo_fit_transform_rejects_empty
              "quran_verses.csv" [] [] _ _ [ascii_str "3"]
              ltac:(vm_compute; reflexivity) ltac:(vm_compute; reflexivity))
    as [Hne [i [_ [_ Hloop]]]].
  exists i. split; [exact H |]. split; [exact Hne | exact Hloop].
Defined.

(** X23 on quran_verses.csv and the query [نخل]. *)
Lemma menu_loop_search_witness :
  exists a verses j i,
    demo_built "quran_verses.csv" = ([], Ok a) /\
    List.length verses <= 5 /\
    menu_loop demo_transform demo_cosine stable_argsort a
      [ascii_str "1"; palm_query; ascii_str "3"] =
    ([Menu; PromptOption; PromptFruitName] ++
     match verses with
     | [] => [NoVersesFound]
     | _ :: _ => RelatedVersesHeader :: map (verse_line 0 j i) verses
     end ++
     fst (menu_loop demo_transform demo_cosine stable_argsort a [ascii_str "3"]),
     snd (menu_loop demo_transform demo_cosine stable_argsort a [ascii_str "3"])).
Proof.
  eexists.
  assert (H : demo_built "quran_verses.csv" = ([], Ok _)) by (vm_compute; reflexivity).
  destruct (menu_loop_search unit pystr Z demo_fit_transform demo_transform demo_cosine
              stable_argsort demo_read_csv parse_decimal demo_str_of_number
              demo_fit_transform_length stable_argsort_perm demo_read_csv_well_formed
              "quran_verses.csv" [] [] _ _ palm_query [ascii_str "3"] 0
              ltac:(vm_compute; reflexivity) ltac:(vm_compute; reflexivity) eq_refl)
    as [verses [j [i [_ [_ [Hlen [_ Hloop]]]]]]].
  exists verses, j, i. split; [exact H |]. split; [exact Hlen | exact Hloop].
Defined.
